(** * Shallow embedding of the lib_fat crate of fat-fuse (a read-only FAT12/16/32 reader).

    Conventions of the model:
    - Rust integers are [Z]; arithmetic on u8/u16/u32/usize is the checked
      arithmetic of a debug build: an overflow, an underflow or a division by
      zero is a panic.
    - Every Rust panic ([unwrap] on [None], out-of-range index or slice,
      failed [expect], [assert!]) is the [Panic] outcome of the [res] monad.
    - Loops that may run forever on a malformed image (chain traversal) take
      an explicit [fuel]; running out of it is [OutOfFuel], never a panic.
    - Bytes are [Z] in [0, 256), UTF-16 code units [Z] in [0, 65536), and a
      Rust [String] is its list of Unicode scalar values ([list Z]).
    - The [HashMap]s of the [Fat] struct are stdpp [gmap]s keyed by [Z]. *)

From Stdlib Require Import ZArith List String Bool Lia.
From stdpp Require Import base gmap.

Open Scope Z_scope.

(** ** Result monad: success, panic, or fuel exhausted *)

Inductive res (A : Type) : Type :=
| Ok (a : A)
| Panic
| OutOfFuel.
Arguments Ok {A} a.
Arguments Panic {A}.
Arguments OutOfFuel {A}.

Definition res_bind {A B : Type} (m : res A) (f : A -> res B) : res B :=
  match m with
  | Ok a => f a
  | Panic => Panic
  | OutOfFuel => OutOfFuel
  end.

Notation "'let*' x ':=' m 'in' k" := (res_bind m (fun x => k))
  (at level 200, x pattern, m at level 100, k at level 200, right associativity).

(** [Option::unwrap] *)
Definition unwrap {A : Type} (o : option A) : res A :=
  match o with Some a => Ok a | None => Panic end.

(** ** Checked machine arithmetic (debug build) *)

Definition chk (bits : Z) (z : Z) : res Z :=
  if (0 <=? z) && (z <? 2 ^ bits) then Ok z else Panic.

Definition u8_add (a b : Z) : res Z := chk 8 (a + b).
Definition u16_add (a b : Z) : res Z := chk 16 (a + b).
Definition u16_sub (a b : Z) : res Z := chk 16 (a - b).
Definition u16_mul (a b : Z) : res Z := chk 16 (a * b).
Definition u16_div (a b : Z) : res Z := if b =? 0 then Panic else Ok (a / b).
Definition u32_add (a b : Z) : res Z := chk 32 (a + b).
Definition u32_sub (a b : Z) : res Z := chk 32 (a - b).
Definition u32_mul (a b : Z) : res Z := chk 32 (a * b).
Definition u32_div (a b : Z) : res Z := if b =? 0 then Panic else Ok (a / b).
Definition u32_rem (a b : Z) : res Z := if b =? 0 then Panic else Ok (a mod b).
Definition usize_add (a b : Z) : res Z := chk 64 (a + b).
Definition usize_sub (a b : Z) : res Z := chk 64 (a - b).
Definition usize_mul (a b : Z) : res Z := chk 64 (a * b).

(** [a..b] as a list of integers *)
Definition zrange (a b : Z) : list Z :=
  map (fun i => a + Z.of_nat i) (seq 0 (Z.to_nat (b - a))).

(** Indexing [v[i]]: panics out of range. *)
Definition idx (l : list Z) (i : Z) : res Z :=
  if i <? 0 then Panic else unwrap (nth_error l (Z.to_nat i)).

(** Slicing [&v[a..b]]: panics unless [a <= b <= len]. *)
Definition slice {A : Type} (l : list A) (a b : Z) : res (list A) :=
  if (0 <=? a) && (a <=? b) && (b <=? Z.of_nat (length l))
  then Ok (firstn (Z.to_nat (b - a)) (skipn (Z.to_nat a) l))
  else Panic.

(** Little-endian readers over a byte buffer (the [byteorder] cursor reads). *)
Definition le16 (buf : list Z) (o : Z) : Z :=
  nth (Z.to_nat o) buf 0 + 256 * nth (Z.to_nat (o + 1)) buf 0.
Definition le32 (buf : list Z) (o : Z) : Z :=
  le16 buf o + 65536 * le16 buf (o + 2).
Definition bytes_at (buf : list Z) (o n : Z) : list Z :=
  map (fun i => nth (Z.to_nat i) buf 0) (zrange o (o + n)).
Definition le16s_at (buf : list Z) (o n : Z) : list Z :=
  map (fun i => le16 buf (o + 2 * i)) (zrange 0 n).

(** ** Data model (fat_struct.rs) *)

Inductive FatType := Fat12 | Fat16 | Fat32.

Definition FatType_eqb (a b : FatType) : bool :=
  match a, b with
  | Fat12, Fat12 | Fat16, Fat16 | Fat32, Fat32 => true
  | _, _ => false
  end.

Record FatBs := { jump : list Z; oem_name : list Z }.

Record FatBpb := {
  bytes_per_sector : Z;
  sectors_per_cluster : Z;
  reserved_clusters : Z;
  num_fats : Z;
  root_entry_count : Z;
  total_sectors_16 : Z;
  media_descriptor : Z;
  fat_size_16 : Z;
  sectors_per_track : Z;
  heads : Z;
  hidden_sectors_count : Z;
  total_sectors_32 : Z
}.

Record FatEbpb := {
  drive_number : Z;
  ebpb_reserved : Z;
  boot_signature : Z;
  volume_id : list Z;
  volume_label : list Z;
  fs_type : list Z
}.

Record Fat32Ebpb := {
  fat_size_32 : Z;
  flags : Z;
  version : Z;
  root_cluster : Z;
  fsinfo_sector : Z;
  backup_sector : Z;
  ebpb32_reserved : list Z;
  drive_number32 : Z;
  reserved_flags : Z;
  signature : Z;
  volume_id32 : list Z;
  volume_label32 : list Z;
  fs_type32 : list Z
}.

Record FatDirectoryEntry := {
  name : list Z;
  attribute : Z;
  nt_reserved : Z;
  created_time_tenth : Z;
  created_time : Z;
  created_date : Z;
  last_accessed : Z;
  first_cluster_hi : Z;
  write_time : Z;
  write_date : Z;
  first_cluster_low : Z;
  size : Z
}.

Record FatLongDirectoryEntry := {
  order : Z;
  name1 : list Z;
  attr : Z;
  dir_type : Z;
  checksum : Z;
  name2 : list Z;
  long_first_cluster_low : Z;
  name3 : list Z
}.

Record FatDirectoryEntryContainer := {
  short_entry : FatDirectoryEntry;
  long_entries : list FatLongDirectoryEntry;
  cached_name : list Z;
  cached_cluster_count : Z
}.

(** The backing image file: its length and its bytes. *)
Record Image := { img_len : Z; img_byte : Z -> Z }.

Definition img_read (im : Image) (pos n : Z) : list Z :=
  map (img_byte im) (zrange pos (pos + n)).

(** The [Fat] struct of lib.rs. *)
Record Fat := {
  bs : FatBs;
  bpb : FatBpb;
  ebpb16 : option FatEbpb;
  ebpb32 : option Fat32Ebpb;
  image : Image;
  fat : gmap Z (list Z);
  dir_cache : gmap Z (list FatDirectoryEntryContainer);
  inode_cache : gmap Z Z;
  fat_type : FatType
}.

Definition set_caches (f : Fat) (dc : gmap Z (list FatDirectoryEntryContainer))
    (ic : gmap Z Z) : Fat :=
  {| bs := bs f; bpb := bpb f; ebpb16 := ebpb16 f; ebpb32 := ebpb32 f;
     image := image f; fat := fat f; dir_cache := dc; inode_cache := ic;
     fat_type := fat_type f |}.

Definition set_fat_map (f : Fat) (m : gmap Z (list Z)) : Fat :=
  {| bs := bs f; bpb := bpb f; ebpb16 := ebpb16 f; ebpb32 := ebpb32 f;
     image := image f; fat := m; dir_cache := dir_cache f;
     inode_cache := inode_cache f; fat_type := fat_type f |}.

Definition set_fat_type (f : Fat) (t : FatType) : Fat :=
  {| bs := bs f; bpb := bpb f; ebpb16 := ebpb16 f; ebpb32 := ebpb32 f;
     image := image f; fat := fat f; dir_cache := dir_cache f;
     inode_cache := inode_cache f; fat_type := t |}.

(** ** fat_helper.rs *)

(** [read_sector]: seek to [bps * n] and [read_exact] one sector. *)
Definition read_sector (f : Fat) (sector_number : Z) : res (list Z) :=
  let bps := bytes_per_sector (bpb f) in
  let pos := bps * sector_number in
  if pos + bps <=? img_len (image f) then Ok (img_read (image f) pos bps)
  else Panic.

Fixpoint read_sectors (f : Fat) (first_sector : Z) (is : list Z) : res (list Z) :=
  match is with
  | [] => Ok []
  | i :: rest =>
      let* s := u32_add first_sector i in
      let* d := read_sector f s in
      let* r := read_sectors f first_sector rest in
      Ok (d ++ r)
  end.

(** [read_cluster]: the [sectors_per_cluster] sectors from [first_sector]. *)
Definition read_cluster (f : Fat) (first_sector : Z) : res (list Z) :=
  read_sectors f first_sector (zrange 0 (sectors_per_cluster (bpb f))).

(** [calculate_fat_size] *)
Definition calculate_fat_size (f : Fat) : res Z :=
  if negb (fat_size_16 (bpb f) =? 0) then Ok (fat_size_16 (bpb f))
  else let* e := unwrap (ebpb32 f) in Ok (fat_size_32 e).

(** [determine_fat_entry_offset] -> (sector number, entry offset) *)
Definition determine_fat_entry_offset (f : Fat) (cluster_number : Z) : res (Z * Z) :=
  let bps := bytes_per_sector (bpb f) in
  let* fat_offset :=
    match fat_type f with
    | Fat16 => u32_mul cluster_number 2
    | Fat32 => u32_mul cluster_number 4
    | Fat12 => let* h := u32_div cluster_number 2 in u32_add cluster_number h
    end in
  let* q := u32_div fat_offset bps in
  let* fat_sector_number := u32_add (reserved_clusters (bpb f)) q in
  let* fat_entry_offset := u32_rem fat_offset bps in
  match fat_type f with
  | Fat32 =>
      let* e := unwrap (ebpb32 f) in
      if Z.land (flags e) 256 =? 0 then Ok (fat_sector_number, fat_entry_offset)
      else
        let active_fat := Z.shiftr (Z.land (flags e) 61440) 12 in
        let* fat_size := calculate_fat_size f in
        let* m := u32_mul active_fat fat_size in
        let* s := u32_add fat_sector_number m in
        Ok (s, fat_entry_offset)
  | _ => Ok (fat_sector_number, fat_entry_offset)
  end.

(** [read_fat_entry] *)
Definition read_fat_entry (f : Fat) (cluster_number fat_sector_number fat_entry_offset : Z)
    : res Z :=
  let* sector := unwrap (fat f !! fat_sector_number) in
  match fat_type f with
  | Fat12 =>
      let* split := u32_sub (bytes_per_sector (bpb f)) 1 in
      let* cluster_entry_value :=
        if fat_entry_offset =? split then
          let* s1 := u32_add fat_sector_number 1 in
          let* sector1 := unwrap (fat f !! s1) in
          let* lo := idx sector fat_entry_offset in
          let* hi := idx sector1 0 in
          Ok (Z.lor lo (Z.shiftl hi 8))
        else
          let* lo := idx sector fat_entry_offset in
          let* i1 := usize_add fat_entry_offset 1 in
          let* hi := idx sector i1 in
          Ok (Z.lor lo (Z.shiftl hi 8)) in
      if negb (Z.land cluster_number 1 =? 0) then Ok (Z.shiftr cluster_entry_value 4)
      else Ok (Z.land cluster_entry_value 4095)
  | Fat16 =>
      let* lo := idx sector fat_entry_offset in
      let* i1 := usize_add fat_entry_offset 1 in
      let* hi := idx sector i1 in
      Ok (Z.lor lo (Z.shiftl hi 8))
  | Fat32 =>
      let* b0 := idx sector fat_entry_offset in
      let* i1 := usize_add fat_entry_offset 1 in
      let* b1 := idx sector i1 in
      let* i2 := usize_add fat_entry_offset 2 in
      let* b2 := idx sector i2 in
      let* i3 := usize_add fat_entry_offset 3 in
      let* b3 := idx sector i3 in
      let v := Z.lor (Z.lor (Z.lor b0 (Z.shiftl b1 8)) (Z.shiftl b2 16)) (Z.shiftl b3 24) in
      Ok (Z.land v 268435455)
  end.

(** [root_dir_sectors] (u16 arithmetic) *)
Definition root_dir_sectors (f : Fat) : res Z :=
  let b := bpb f in
  let* m := u16_mul (root_entry_count b) 32 in
  let* s := u16_sub (bytes_per_sector b) 1 in
  let* a := u16_add m s in
  u16_div a (bytes_per_sector b).

(** [first_sector_of_cluster] *)
Definition first_sector_of_cluster (f : Fat) (cluster_number : Z) : res Z :=
  let b := bpb f in
  let* rds := root_dir_sectors f in
  let* fat_size := calculate_fat_size f in
  let* nf := u32_mul (num_fats b) fat_size in
  let* a := u32_add (reserved_clusters b) nf in
  let* first_data_sector := u32_add a rds in
  let* c := u32_sub cluster_number 2 in
  let* d := u32_mul c (sectors_per_cluster b) in
  u32_add d first_data_sector.

(** [is_eof] *)
Definition is_eof (f : Fat) (fat_entry : Z) : bool :=
  match fat_type f with
  | Fat12 => 4088 <=? fat_entry
  | Fat16 => 65528 <=? fat_entry
  | Fat32 => 268435448 <=? fat_entry
  end.

(** The [while !eof] loop of [file_cluster_count]. Note that the source
    passes the start cluster [cluster_number], not [current_block], to
    [read_fat_entry]. *)
Fixpoint file_cluster_count_loop (fuel : nat) (f : Fat)
    (cluster_number current_block n_blocks : Z) : res Z :=
  match fuel with
  | O => OutOfFuel
  | S fuel' =>
      let* (fat_sector_number, fat_entry_offset) :=
        determine_fat_entry_offset f current_block in
      let* fat_entry := read_fat_entry f cluster_number fat_sector_number fat_entry_offset in
      let eof := is_eof f fat_entry || (fat_entry =? 0) in
      let* n := u32_add n_blocks 1 in
      if eof then Ok n
      else file_cluster_count_loop fuel' f cluster_number fat_entry n
  end.

(** [file_cluster_count] *)
Definition file_cluster_count (fuel : nat) (f : Fat) (cluster_number : Z) : res Z :=
  if cluster_number =? 0 then Ok 0
  else file_cluster_count_loop fuel f cluster_number cluster_number 0.

(** [read_data] *)
Definition read_data (f : Fat) (cluster_number : Z) : res (list Z * option Z) :=
  if cluster_number =? 0 then Ok ([], None)
  else
    let* sector_number := first_sector_of_cluster f cluster_number in
    let* sector := read_cluster f sector_number in
    let* (fat_sector_number, fat_entry_offset) :=
      determine_fat_entry_offset f cluster_number in
    let* fat_entry := read_fat_entry f cluster_number fat_sector_number fat_entry_offset in
    let eof := is_eof f fat_entry || (fat_entry =? 0) in
    if eof then Ok (sector, None) else Ok (sector, Some fat_entry).

(** The [while let Some(fat_entry)] loop of [read_file_full]. *)
Fixpoint read_file_full_loop (fuel : nat) (f : Fat) (data sector : list Z)
    (fat_entry_option : option Z) : res (list Z) :=
  match fat_entry_option with
  | None => Ok (data ++ sector)
  | Some fat_entry =>
      match fuel with
      | O => OutOfFuel
      | S fuel' =>
          let* (sector', opt') := read_data f fat_entry in
          read_file_full_loop fuel' f (data ++ sector) sector' opt'
      end
  end.

(** [read_file_full] *)
Definition read_file_full (fuel : nat) (f : Fat) (cluster_number : Z) : res (list Z) :=
  let* (sector, opt) := read_data f cluster_number in
  read_file_full_loop fuel f [] sector opt.

(** ** fat_dir.rs: entry parsing and names *)

(** [FatDirectoryEntry::cluster_number] *)
Definition cluster_number (se : FatDirectoryEntry) : Z :=
  Z.lor (Z.shiftl (first_cluster_hi se) 16) (first_cluster_low se).

Definition container_cluster_number (c : FatDirectoryEntryContainer) : Z :=
  cluster_number (short_entry c).

(** [FatDirectoryEntry::new] over a 32-byte buffer *)
Definition FatDirectoryEntry_new (b : list Z) : FatDirectoryEntry :=
  {| name := bytes_at b 0 11;
     attribute := nth 11 b 0;
     nt_reserved := nth 12 b 0;
     created_time_tenth := nth 13 b 0;
     created_time := le16 b 14;
     created_date := le16 b 16;
     last_accessed := le16 b 18;
     first_cluster_hi := le16 b 20;
     write_time := le16 b 22;
     write_date := le16 b 24;
     first_cluster_low := le16 b 26;
     size := le32 b 28 |}.

(** [FatLongDirectoryEntry::new] over a 32-byte buffer *)
Definition FatLongDirectoryEntry_new (b : list Z) : FatLongDirectoryEntry :=
  {| order := nth 0 b 0;
     name1 := le16s_at b 1 5;
     attr := nth 11 b 0;
     dir_type := nth 12 b 0;
     checksum := nth 13 b 0;
     name2 := le16s_at b 14 6;
     long_first_cluster_low := le16 b 26;
     name3 := le16s_at b 28 2 |}.

(** [chksum]: rotate right by one, then add, all on u8 with wrap-around. *)
Definition chksum (nm : list Z) : Z :=
  fold_left (fun sum c =>
               let p1 := if Z.land sum 1 =? 0 then 0 else 128 in
               let p2 := Z.shiftr sum 1 in
               let a1 := (p1 + p2) mod 256 in
               (a1 + c) mod 256) nm 0.

(** [String::from_utf8]: UTF-8 validation and decoding to scalar values. *)
Definition is_cont (b : Z) : bool := (128 <=? b) && (b <=? 191).

Fixpoint from_utf8 (l : list Z) : option (list Z) :=
  match l with
  | [] => Some []
  | b0 :: r0 =>
      if b0 <? 128 then option_map (cons b0) (from_utf8 r0)
      else
        match r0 with
        | [] => None
        | b1 :: r1 =>
            if (194 <=? b0) && (b0 <=? 223) then
              if is_cont b1 then option_map (cons ((b0 - 192) * 64 + (b1 - 128))) (from_utf8 r1)
              else None
            else
              match r1 with
              | [] => None
              | b2 :: r2 =>
                  if (224 <=? b0) && (b0 <=? 239) then
                    let lo1 := if b0 =? 224 then 160 else 128 in
                    let hi1 := if b0 =? 237 then 159 else 191 in
                    if (lo1 <=? b1) && (b1 <=? hi1) && is_cont b2 then
                      option_map (cons ((b0 - 224) * 4096 + (b1 - 128) * 64 + (b2 - 128)))
                        (from_utf8 r2)
                    else None
                  else
                    match r2 with
                    | [] => None
                    | b3 :: r3 =>
                        let lo1 := if b0 =? 240 then 144 else 128 in
                        let hi1 := if b0 =? 244 then 143 else 191 in
                        if (240 <=? b0) && (b0 <=? 244) && (lo1 <=? b1) && (b1 <=? hi1)
                           && is_cont b2 && is_cont b3 then
                          option_map (cons ((b0 - 240) * 262144 + (b1 - 128) * 4096
                                            + (b2 - 128) * 64 + (b3 - 128)))
                            (from_utf8 r3)
                        else None
                    end
              end
        end
  end.

(** [decode_utf16(..).map(|r| r.unwrap_or(REPLACEMENT_CHARACTER))] *)
Fixpoint decode_utf16 (l : list Z) : list Z :=
  match l with
  | [] => []
  | u :: rest =>
      if (u <? 55296) || (57343 <? u) then u :: decode_utf16 rest
      else if 56320 <=? u then 65533 :: decode_utf16 rest
      else
        match rest with
        | [] => [65533]
        | u2 :: rest2 =>
            if (56320 <=? u2) && (u2 <=? 57343)
            then (65536 + (u - 55296) * 1024 + (u2 - 56320)) :: decode_utf16 rest2
            else 65533 :: decode_utf16 rest
        end
  end.

(** The index loop of the short-name case: [end_index] is one past the last
    byte of [name] that is not 0x20 (0 when all are 0x20). *)
Fixpoint find_end_index (rev_name : list Z) (index len : nat) : nat :=
  match rev_name with
  | [] => 0
  | c :: r => if negb (c =? 32) then (len - index)%nat else find_end_index r (S index) len
  end.

(** [parse_name], case [long_entries.len() == 0] *)
Definition parse_short_name (se : FatDirectoryEntry) : res (list Z) :=
  let name_bytes := name se in
  let* nm := slice name_bytes 1 8 in
  let* ext := slice name_bytes 8 11 in
  let* n0 := idx name_bytes 0 in
  let buf0 := [if n0 =? 5 then 229 else n0] in
  let end_index := find_end_index (rev nm) 0 (length nm) in
  let buf1 := if negb (Nat.eqb end_index 0) then buf0 ++ firstn end_index nm else buf0 in
  let* e0 := idx ext 0 in
  let* e1 := idx ext 1 in
  let* e2 := idx ext 2 in
  let buf2 :=
    if negb (e0 =? 32) then
      buf1 ++ [46; e0] ++
        (if negb (e2 =? 32) then [e1; e2]
         else if negb (e1 =? 32) then [e1] else [])
    else buf1 in
  unwrap (from_utf8 buf2).

(** [replace_vec_section]: [v[start + index] = c], panicking out of range. *)
Fixpoint replace_vec_section (v : list Z) (a : list Z) (start : Z) : res (list Z) :=
  match a with
  | [] => Ok v
  | c :: r =>
      if (0 <=? start) && (start <? Z.of_nat (length v))
      then replace_vec_section (<[Z.to_nat start := c]> v) r (start + 1)
      else Panic
  end.

(** One iteration of the fragment-placing loop of [parse_name]. *)
Definition place_long_entry (v : list Z) (e : FatLongDirectoryEntry) : res (list Z) :=
  let entry_n := Z.land (order e) 191 in
  let* m := usize_sub entry_n 1 in
  let* offset := usize_mul m 13 in
  let* v1 := replace_vec_section v (name1 e) offset in
  let* o2 := usize_add offset 5 in
  let* v2 := replace_vec_section v1 (name2 e) o2 in
  let* o3 := usize_add offset 11 in
  replace_vec_section v2 (name3 e) o3.

Fixpoint place_long_entries (v : list Z) (les : list FatLongDirectoryEntry) : res (list Z) :=
  match les with
  | [] => Ok v
  | e :: r => let* v' := place_long_entry v e in place_long_entries v' r
  end.

(** [Iterator::position(|&r| r == 0)] *)
Fixpoint position_zero (l : list Z) : option nat :=
  match l with
  | [] => None
  | x :: r => if x =? 0 then Some O else option_map S (position_zero r)
  end.

(** [parse_name], case with long entries *)
Definition parse_long_name (les : list FatLongDirectoryEntry) : res (list Z) :=
  let name_bytes := repeat 0 (length les * 13) in
  let* v := place_long_entries name_bytes les in
  let* index := unwrap (position_zero v) in
  Ok (decode_utf16 (firstn index v)).

(** [FatDirectoryEntryContainer::parse_name] *)
Definition parse_name (se : FatDirectoryEntry) (les : list FatLongDirectoryEntry) : res (list Z) :=
  match les with
  | [] => parse_short_name se
  | _ => parse_long_name les
  end.

(** ** fat_dir.rs: directory decoding *)

(** The [while !current_long_entries.is_empty()] loop of [read_dir_chain]:
    returns the accepted long entries and the pending entries left behind
    by a [break]. *)
Fixpoint move_long_entries (current : list FatLongDirectoryEntry) (ck : Z)
    (acc : list FatLongDirectoryEntry)
    : res (list FatLongDirectoryEntry * list FatLongDirectoryEntry) :=
  match current with
  | [] => Ok (acc, [])
  | e :: rest =>
      let* n := u8_add (Z.of_nat (length rest) mod 256) 1 in
      if Z.land (attr e) n =? 0 then Ok ([], rest)
      else if negb (checksum e =? ck) then Ok ([], rest)
      else move_long_entries rest ck (acc ++ [e])
  end.

(** The [loop] of [read_dir_chain]. [fuel] bounds the number of 32-byte
    steps (the slice panics once past the buffer, so [S (length sector)]
    steps always suffice); [chain_fuel] is passed to [file_cluster_count]. *)
Fixpoint read_dir_chain_loop (fuel chain_fuel : nat) (f : Fat) (sector : list Z)
    (current : Z) (long_pending : list FatLongDirectoryEntry)
    (entries : list FatDirectoryEntryContainer) : res (list FatDirectoryEntryContainer) :=
  match fuel with
  | O => OutOfFuel
  | S fuel' =>
      let* next := usize_add current 32 in
      let* current_buffer := slice sector current next in
      let* b0 := idx current_buffer 0 in
      if b0 =? 0 then Ok entries
      else if b0 =? 229 then
        read_dir_chain_loop fuel' chain_fuel f sector next long_pending entries
      else
        let* attr_byte := idx current_buffer 11 in
        if Z.land attr_byte 63 =? 15 then
          read_dir_chain_loop fuel' chain_fuel f sector next
            (long_pending ++ [FatLongDirectoryEntry_new current_buffer]) entries
        else
          let test_val := Z.land attr_byte 24 in
          if (test_val =? 0) || (test_val =? 16) || (test_val =? 8) then
            let se := FatDirectoryEntry_new current_buffer in
            let ck := chksum (name se) in
            let* (les, rest) := move_long_entries long_pending ck [] in
            let* cc := file_cluster_count chain_fuel f (cluster_number se) in
            let* nm := parse_name se les in
            read_dir_chain_loop fuel' chain_fuel f sector next rest
              (entries ++ [{| short_entry := se; long_entries := les;
                              cached_name := nm; cached_cluster_count := cc |}])
          else read_dir_chain_loop fuel' chain_fuel f sector next long_pending entries
  end.

(** The "Cache parents" loop *)
Definition cache_parents (ic : gmap Z Z) (entries : list FatDirectoryEntryContainer)
    (inode : Z) : gmap Z Z :=
  fold_left (fun m e => <[container_cluster_number e := inode]> m) entries ic.

(** [read_dir_chain] *)
Definition read_dir_chain (chain_fuel : nat) (f : Fat) (inode : Z) (sector : list Z)
    (start : Z) : res Fat :=
  let* entries := read_dir_chain_loop (S (length sector)) chain_fuel f sector start [] [] in
  let ic := cache_parents (inode_cache f) entries inode in
  Ok (set_caches f (<[inode := entries]> (dir_cache f)) ic).

Fixpoint read_root_sectors (f : Fat) (first_root_sector_num : Z) (is : list Z)
    : res (list Z) :=
  match is with
  | [] => Ok []
  | i :: r =>
      let* s := u16_add i first_root_sector_num in
      let* d := read_sector f s in
      let* rest := read_root_sectors f first_root_sector_num r in
      Ok (d ++ rest)
  end.

(** [read_root_dir] *)
Definition read_root_dir (fuel : nat) (f : Fat) : res Fat :=
  match fat_type f with
  | Fat12 | Fat16 =>
      let* m := u16_mul (num_fats (bpb f)) (fat_size_16 (bpb f)) in
      let* first_root_sector_num := u16_add (reserved_clusters (bpb f)) m in
      let* root_sector_count := root_dir_sectors f in
      let* root_dir := read_root_sectors f first_root_sector_num (zrange 0 root_sector_count) in
      read_dir_chain fuel f 0 root_dir 0
  | Fat32 =>
      let* e := unwrap (ebpb32 f) in
      let* root_dir := read_file_full fuel f (root_cluster e) in
      read_dir_chain fuel f (root_cluster e) root_dir 0
  end.

(** [get_dir]: the new state and the looked-up directory. *)
Definition get_dir (fuel : nat) (f : Fat) (inode : Z)
    : res (Fat * option (list FatDirectoryEntryContainer)) :=
  match dir_cache f !! inode with
  | Some _ => Ok (f, dir_cache f !! inode)
  | None =>
      let* dir_file := read_file_full fuel f inode in
      let* f' := read_dir_chain fuel f inode dir_file 0 in
      Ok (f', dir_cache f' !! inode)
  end.

(** ** fat_reserved.rs *)

Definition FatBs_new (b : list Z) : FatBs :=
  {| jump := bytes_at b 0 3; oem_name := bytes_at b 3 8 |}.

Definition FatBpb_new (b : list Z) : FatBpb :=
  {| bytes_per_sector := le16 b 11;
     sectors_per_cluster := nth 13 b 0;
     reserved_clusters := le16 b 14;
     num_fats := nth 16 b 0;
     root_entry_count := le16 b 17;
     total_sectors_16 := le16 b 19;
     media_descriptor := nth 21 b 0;
     fat_size_16 := le16 b 22;
     sectors_per_track := le16 b 24;
     heads := le16 b 26;
     hidden_sectors_count := le32 b 28;
     total_sectors_32 := le32 b 32 |}.

Definition FatEbpb_new (b : list Z) : FatEbpb :=
  {| drive_number := nth 36 b 0;
     ebpb_reserved := nth 37 b 0;
     boot_signature := nth 38 b 0;
     volume_id := bytes_at b 39 4;
     volume_label := bytes_at b 43 11;
     fs_type := bytes_at b 54 8 |}.

Definition Fat32Ebpb_new (b : list Z) : Fat32Ebpb :=
  {| fat_size_32 := le32 b 36;
     flags := le16 b 40;
     version := le16 b 42;
     root_cluster := le32 b 44;
     fsinfo_sector := le16 b 48;
     backup_sector := le16 b 50;
     ebpb32_reserved := bytes_at b 52 12;
     drive_number32 := nth 64 b 0;
     reserved_flags := nth 65 b 0;
     signature := nth 66 b 0;
     volume_id32 := bytes_at b 67 4;
     volume_label32 := bytes_at b 71 11;
     fs_type32 := bytes_at b 82 8 |}.

(** The FAT type selected by a cluster count. *)
Definition fat_type_of_count (cluster_count : Z) : FatType :=
  if cluster_count <? 4085 then Fat12
  else if cluster_count <? 65525 then Fat16
  else Fat32.

(** [determine_fat_type] *)
Definition determine_fat_type (f : Fat) : res (Z * FatType) :=
  let b := bpb f in
  let* rds := root_dir_sectors f in
  let* fat_size :=
    if negb (fat_size_16 b =? 0) then Ok (fat_size_16 b)
    else let* e := unwrap (ebpb32 f) in Ok (fat_size_32 e) in
  let total_sectors := if negb (total_sectors_16 b =? 0) then total_sectors_16 b
                       else total_sectors_32 b in
  let* m := u32_mul (num_fats b) fat_size in
  let* a := u32_add (reserved_clusters b) m in
  let* c := u32_add a rds in
  let* data_sectors := u32_sub total_sectors c in
  let* cluster_count := u32_div data_sectors (sectors_per_cluster b) in
  Ok (cluster_count, fat_type_of_count cluster_count).

Definition signature_ok (buffer : list Z) : bool :=
  (nth 510 buffer 0 =? 85) && (nth 511 buffer 0 =? 170).

(** The "Read all reserved sectors" loop *)
Fixpoint read_reserved_sectors (f : Fat) (is : list Z) (m : gmap Z (list Z))
    : res (gmap Z (list Z)) :=
  match is with
  | [] => Ok m
  | i :: r =>
      let* sector := read_sector f i in
      read_reserved_sectors f r (<[i := sector]> m)
  end.

(** [read_reserved] *)
Definition read_reserved (im : Image) : res Fat :=
  if img_len im <? 512 then Panic else
  let b0 := img_read im 0 512 in
  let* buffer :=
    if signature_ok b0 then Ok b0
    else if img_len im <? 3072 + 512 then Panic
    else let b6 := img_read im 3072 512 in
         if signature_ok b6 then Ok b6 else Panic in
  let bpb0 := FatBpb_new buffer in
  let is32 := (fat_size_16 bpb0 =? 0) && (total_sectors_16 bpb0 =? 0)
              && negb (total_sectors_32 bpb0 =? 0) in
  let f0 := {| bs := FatBs_new buffer; bpb := bpb0;
               ebpb16 := if is32 then None else Some (FatEbpb_new buffer);
               ebpb32 := if is32 then Some (Fat32Ebpb_new buffer) else None;
               image := im; fat := ∅; dir_cache := ∅; inode_cache := ∅;
               fat_type := Fat32 |} in
  let declared :=
    if total_sectors_16 bpb0 =? 0 then total_sectors_32 bpb0 * bytes_per_sector bpb0
    else total_sectors_16 bpb0 * bytes_per_sector bpb0 in
  if img_len im <? declared then Panic else
  let* (_, t) := determine_fat_type f0 in
  let f1 := set_fat_type f0 t in
  if num_fats bpb0 <? 2 then Panic else
  let* n := first_sector_of_cluster f1 2 in
  let* m := read_reserved_sectors f1 (zrange 0 n) (fat f1) in
  Ok (set_fat_map f1 m).

(** ** lib.rs: the volume facade *)

(** [Fat::mount_volume], from an opened image file *)
Definition mount_volume (fuel : nat) (im : Image) : res Fat :=
  let* f := read_reserved im in
  read_root_dir fuel f.

(** [Fat::get_root_cluster_number] *)
Definition get_root_cluster_number (f : Fat) : res Z :=
  match fat_type f with
  | Fat32 => let* e := unwrap (ebpb32 f) in Ok (root_cluster e)
  | _ => Ok 0
  end.

(** [Fat::get_data] (the image is only read: the state is unchanged) *)
Definition get_data (fuel : nat) (f : Fat) (ino offset sz : Z) : res (option (list Z)) :=
  match inode_cache f !! ino with
  | None => Ok None
  | Some _ =>
      let* data := read_file_full fuel f ino in
      let head := offset in
      let* tail := usize_add head sz in
      if Z.of_nat (length data) <? offset then Ok (Some [])
      else
        let tail' := if Z.of_nat (length data) <? tail then Z.of_nat (length data) else tail in
        let* s := slice data head tail' in
        Ok (Some s)
  end.

(** [Fat::get_inode] *)
Definition get_inode (f : Fat) (inode : Z) : res (option FatDirectoryEntryContainer) :=
  match inode_cache f !! inode with
  | None => Ok None
  | Some parent_inode =>
      let* dir := unwrap (dir_cache f !! parent_inode) in
      Ok (List.find (fun c => container_cluster_number c =? inode) dir)
  end.

(** [Fat::list_directory] *)
Definition list_directory (fuel : nat) (f : Fat) (inode : Z)
    : res (Fat * option (list FatDirectoryEntryContainer)) :=
  get_dir fuel f inode.

Section Lookup.
(** [str::to_lowercase], from the Rust standard library, is left abstract. *)
Variable to_lowercase : list Z -> list Z.

Fixpoint find_child (nm : list Z) (dir : list FatDirectoryEntryContainer)
    : option FatDirectoryEntryContainer :=
  match dir with
  | [] => None
  | child :: r =>
      if bool_decide (to_lowercase (cached_name child) = nm) then Some child
      else find_child nm r
  end.

(** [Fat::lookup] *)
Definition lookup (fuel : nat) (f : Fat) (parent_inode : Z) (nm : list Z)
    : res (Fat * option FatDirectoryEntryContainer) :=
  let nm' := to_lowercase nm in
  let* f' :=
    match dir_cache f !! parent_inode with
    | None => let* (f', _) := list_directory fuel f parent_inode in Ok f'
    | Some _ => Ok f
    end in
  match dir_cache f' !! parent_inode with
  | None => Ok (f', None)
  | Some dir => Ok (f', find_child nm' dir)
  end.

(** The public operations after mounting, as state transformers. *)
Inductive fat_op :=
| OpListDirectory (inode : Z)
| OpLookup (parent_inode : Z) (nm : list Z)
| OpGetData (ino offset sz : Z)
| OpGetInode (inode : Z).

Definition fat_step (fuel : nat) (f : Fat) (op : fat_op) : res Fat :=
  match op with
  | OpListDirectory i => let* (f', _) := list_directory fuel f i in Ok f'
  | OpLookup p nm => let* (f', _) := lookup fuel f p nm in Ok f'
  | OpGetData i o s => let* _ := get_data fuel f i o s in Ok f
  | OpGetInode i => let* _ := get_inode f i in Ok f
  end.

Fixpoint run_ops (fuel : nat) (f : Fat) (ops : list fat_op) : res Fat :=
  match ops with
  | [] => Ok f
  | op :: r => let* f' := fat_step fuel f op in run_ops fuel f' r
  end.

End Lookup.

(** ** fat_dir.rs: date, time and container accessors *)

(** [parse_date]: (year, month, day) of a FAT date stamp; the [try_into]
    of month and day into u8 is checked. *)
Definition parse_date (date : Z) : res (Z * Z * Z) :=
  let day := Z.land date 31 in
  let month := Z.shiftr (Z.land date 480) 5 in
  let* year := u16_add (Z.shiftr (Z.land date 65024) 9) 1980 in
  let* m := chk 8 month in
  let* d := chk 8 day in
  Ok (year, m, d).

(** [parse_time]: (hour, minute, second) of a FAT time stamp. *)
Definition parse_time (time : Z) : res (Z * Z * Z) :=
  let* second := u16_mul (Z.land time 31) 2 in
  let minute := Z.shiftr (Z.land time 2016) 5 in
  let hour := Z.shiftr (Z.land time 63488) 11 in
  let* h := chk 8 hour in
  let* mi := chk 8 minute in
  let* s := chk 8 second in
  Ok (h, mi, s).

(** [FatDirectoryEntryContainer::get_creation_time] *)
Definition get_creation_time (c : FatDirectoryEntryContainer) : res (Z * Z * Z * Z * Z * Z) :=
  let* (ymd, day) := parse_date (created_date (short_entry c)) in
  let* (hm, second) := parse_time (created_time (short_entry c)) in
  let (year, month) := ymd in
  let (hour, minute) := hm in
  Ok (year, month, day, hour, minute, second).

(** [FatDirectoryEntryContainer::get_last_accessed_date] *)
Definition get_last_accessed_date (c : FatDirectoryEntryContainer) : res (Z * Z * Z) :=
  parse_date (last_accessed (short_entry c)).

(** [FatDirectoryEntryContainer::get_write_time] *)
Definition get_write_time (c : FatDirectoryEntryContainer) : res (Z * Z * Z * Z * Z * Z) :=
  let* (ymd, day) := parse_date (write_date (short_entry c)) in
  let* (hm, second) := parse_time (write_time (short_entry c)) in
  let (year, month) := ymd in
  let (hour, minute) := hm in
  Ok (year, month, day, hour, minute, second).

(** [FatDirectoryEntryContainer::cluster_count] *)
Definition container_cluster_count (c : FatDirectoryEntryContainer) (is_fat32 : bool) : Z :=
  if (container_cluster_number c =? 0) && negb is_fat32 then 1
  else cached_cluster_count c.

(** [Fat::is_fat32] *)
Definition is_fat32 (f : Fat) : bool := FatType_eqb (fat_type f) Fat32.

(** ** fat_fuse.rs: the directory listing of [readdir] *)

Inductive FileKind := KDirectory | KRegularFile.

(** The [for entry in dir] loop: hidden and volume-id entries are skipped,
    the root and cluster 0 are reported as inode 1, and only directories and
    archive files are pushed. *)
Fixpoint readdir_push (root_inode : Z) (dir : list FatDirectoryEntryContainer)
    : list (Z * FileKind * list Z) :=
  match dir with
  | [] => []
  | e :: r =>
      let a := attribute (short_entry e) in
      if negb (Z.land a 2 =? 0) || negb (Z.land a 8 =? 0) then readdir_push root_inode r
      else
        let inode := container_cluster_number e in
        let inode := if (inode =? root_inode) || (inode =? 0) then 1 else inode in
        if negb (Z.land a 16 =? 0) then (inode, KDirectory, cached_name e) :: readdir_push root_inode r
        else if negb (Z.land a 32 =? 0) then (inode, KRegularFile, cached_name e) :: readdir_push root_inode r
        else readdir_push root_inode r
  end.

(** [entries.into_iter().enumerate()], each entry with the offset [i + 1]
    given to [reply.add]. *)
Fixpoint readdir_cookies (i : nat) (l : list (Z * FileKind * list Z))
    : list (Z * Z * FileKind * list Z) :=
  match l with
  | [] => []
  | (ino, k, nm) :: r => (ino, Z.of_nat i + 1, k, nm) :: readdir_cookies (S i) r
  end.

(** [FatFS::readdir]: the new state and the [reply.add] calls, or [None]
    for [reply.error(ENOENT)]. The inode is a u64 and the offset an i64;
    [offset as usize] wraps a negative offset. *)
Definition readdir (fuel : nat) (f : Fat) (ino offset : Z)
    : res (Fat * option (list (Z * Z * FileKind * list Z))) :=
  let* root_inode := get_root_cluster_number f in
  let* target := if ino =? 1 then Ok root_inode else chk 32 ino in
  let* (f', dir_option) := list_directory fuel f target in
  match dir_option with
  | None => Ok (f', None)
  | Some dir =>
      (* "." and ".." *)
      let dots := if ino =? 1 then [(1, KDirectory, [46]); (1, KDirectory, [46; 46])] else [] in
      let entries := dots ++ readdir_push root_inode dir in
      Ok (f', Some (skipn (Z.to_nat (offset mod 2 ^ 64)) (readdir_cookies 0 entries)))
  end.

(** ** Concrete images *)

(** A sparse image: its length and the byte segments that are not zero. *)
Fixpoint seg_byte (segs : list (Z * list Z)) (p : Z) : Z :=
  match segs with
  | [] => 0
  | (o, bytes) :: r =>
      if (o <=? p) && (p <? o + Z.of_nat (length bytes))
      then nth (Z.to_nat (p - o)) bytes 0 else seg_byte r p
  end.

Definition sparse_image (len : Z) (segs : list (Z * list Z)) : Image :=
  {| img_len := len; img_byte := seg_byte segs |}.

Definition codes (s : string) : list Z :=
  map (fun a => Z.of_nat (Ascii.nat_of_ascii a)) (list_ascii_of_string s).

(** Boot sector of a 1.44 MB floppy: 512 bytes per sector, 1 sector per
    cluster, 1 reserved sector, 2 FATs of 9 sectors, 224 root entries,
    2880 sectors. *)
Definition floppy_boot : list Z :=
  [235; 60; 144] ++ codes "MSDOS5.0" ++
  [0; 2; 1; 1; 0; 2; 224; 0; 64; 11; 240; 9; 0; 18; 0; 2; 0;
   0; 0; 0; 0; 0; 0; 0; 0; 0; 0; 41; 1; 2; 3; 4] ++
  codes "NO NAME    " ++ codes "FAT12   ".

(** A 32-byte short entry: name, attribute, first cluster, size. *)
Definition short_entry_bytes (nm : list Z) (at_byte cl sz : Z) : list Z :=
  nm ++ [at_byte] ++ repeat 0 8 ++ [Z.shiftr cl 16 mod 256; Z.shiftr cl 24 mod 256]
     ++ repeat 0 4 ++ [cl mod 256; Z.shiftr cl 8 mod 256]
     ++ [sz mod 256; Z.shiftr sz 8 mod 256; Z.shiftr sz 16 mod 256; Z.shiftr sz 24 mod 256].

(** The floppy with the given first bytes of both FATs, root directory
    entries, and contents of cluster 2 (sector 33). *)
Definition floppy_image (fat_bytes root_dir data : list Z) : Image :=
  sparse_image 1474560
    [(0, floppy_boot); (510, [85; 170]); (512, fat_bytes); (5120, fat_bytes);
     (9728, root_dir); (16896, data)].

Definition hello_entry : list Z := short_entry_bytes (codes "HELLO   TXT") 32 2 13.

(** The seed image: one file HELLO.TXT of 13 bytes in cluster 2. *)
Definition seed_image : Image :=
  floppy_image [240; 255; 255; 255; 15] hello_entry (codes "Hello, world!").

(** A 32-byte long-name entry: order byte, 13 UTF-16 units, checksum. *)
Definition u16_bytes (units : list Z) : list Z :=
  flat_map (fun u => [u mod 256; u / 256]) units.

Definition long_entry_bytes (ord : Z) (units : list Z) (ck : Z) : list Z :=
  [ord] ++ u16_bytes (firstn 5 units) ++ [15; 0; ck] ++
  u16_bytes (firstn 6 (skipn 5 units)) ++ [0; 0] ++ u16_bytes (skipn 11 units).

Definition lfn_short_name : list Z := codes "HELLO~1 TXT".

(** The 13-unit fragments of the long name "Hello World.txt". *)
Definition lfn_part1 : list Z := codes "Hello World.t".
Definition lfn_part2 : list Z := codes "xt" ++ [0] ++ repeat 65535 10.

(** The floppy whose root directory holds the given long entries before a
    short entry HELLO~1.TXT (13 bytes in cluster 2). *)
Definition lfn_image (long_bytes : list Z) : Image :=
  floppy_image [240; 255; 255; 255; 15]
    (long_bytes ++ short_entry_bytes lfn_short_name 32 2 13) (codes "Hello, world!").

(** The names listed for the root directory of a mounted image. *)
Definition root_names (fuel : nat) (im : Image) : res (option (list (list Z))) :=
  let* f := mount_volume fuel im in
  let* (_, d) := list_directory fuel f 0 in
  Ok (option_map (map cached_name) d).

(** A FAT32 volume (512-byte sectors, 32 reserved sectors, two FATs of 520
    sectors, 67000 sectors, hence 65928 clusters) with the given EBPB flags.
    Only the first sector of each FAT bank is loaded: the entry of cluster 2
    is 5 in the first bank (a corrupted value) and end-of-chain in the second. *)
Definition fat32_bpb : FatBpb :=
  {| bytes_per_sector := 512; sectors_per_cluster := 1; reserved_clusters := 32;
     num_fats := 2; root_entry_count := 0; total_sectors_16 := 0;
     media_descriptor := 248; fat_size_16 := 0; sectors_per_track := 63;
     heads := 255; hidden_sectors_count := 0; total_sectors_32 := 67000 |}.

Definition fat32_ebpb (fl : Z) : Fat32Ebpb :=
  {| fat_size_32 := 520; flags := fl; version := 0; root_cluster := 2;
     fsinfo_sector := 1; backup_sector := 6; ebpb32_reserved := repeat 0 12;
     drive_number32 := 128; reserved_flags := 0; signature := 41;
     volume_id32 := [1; 2; 3; 4]; volume_label32 := codes "NO NAME    ";
     fs_type32 := codes "FAT32   " |}.

Definition fat32_bank1_sector : list Z :=
  [248; 255; 255; 15; 255; 255; 255; 15; 5; 0; 0; 0] ++ repeat 0 500.
Definition fat32_bank2_sector : list Z :=
  [248; 255; 255; 15; 255; 255; 255; 15; 255; 255; 255; 15] ++ repeat 0 500.

Definition fat32_volume (fl : Z) : Fat :=
  {| bs := {| jump := [235; 88; 144]; oem_name := codes "MSWIN4.1" |};
     bpb := fat32_bpb; ebpb16 := None; ebpb32 := Some (fat32_ebpb fl);
     image := sparse_image (67000 * 512) [];
     fat := <[32 := fat32_bank1_sector]> (<[552 := fat32_bank2_sector]> ∅);
     dir_cache := ∅; inode_cache := ∅; fat_type := Fat32 |}.

(** The FAT entry of a cluster, as read by the chain traversals. *)
Definition fat_entry_of (f : Fat) (cluster_number : Z) : res Z :=
  let* (s, o) := determine_fat_entry_offset f cluster_number in
  read_fat_entry f cluster_number s o.

(** The floppy where the file in cluster 2 continues in cluster 3:
    FAT12 entries 2 -> 3 and 3 -> 0xFFF. *)
Definition two_cluster_image : Image :=
  floppy_image [240; 255; 255; 3; 240; 255]
    (short_entry_bytes (codes "TWO     BIN") 32 2 600) [].


(** The long-name fragments of "Hello World.txt" for HELLO~1.TXT. *)
Definition lfn_checksum : Z := chksum lfn_short_name.
Definition lfn_frag1 (ord : Z) : list Z := long_entry_bytes ord lfn_part1 lfn_checksum.
Definition lfn_frag2 (ord : Z) : list Z := long_entry_bytes ord lfn_part2 lfn_checksum.

Definition short_of (nm : string) : FatDirectoryEntry :=
  FatDirectoryEntry_new (short_entry_bytes (codes nm) 32 0 0).

Definition short_of_bytes (nm : list Z) : FatDirectoryEntry :=
  FatDirectoryEntry_new (short_entry_bytes nm 32 0 0).

Definition res_default {A : Type} (d : A) (r : res A) : A :=
  match r with Ok a => a | _ => d end.

(** The volume mounted from an image (a fixed FAT32 state if mounting fails). *)
Definition mounted (fuel : nat) (im : Image) : Fat :=
  res_default (fat32_volume 0) (mount_volume fuel im).

(** ** Witness volumes and entries *)

(** The mounted seed volume. *)
Definition seed_volume : Fat := mounted 10 seed_image.

Definition demo_entry_bytes : list Z := short_entry_bytes (codes "HELLO   TXT") 32 5 13.

Definition demo_entry : FatDirectoryEntryContainer :=
  {| short_entry := FatDirectoryEntry_new demo_entry_bytes; long_entries := [];
     cached_name := codes "HELLO.TXT"; cached_cluster_count := 1 |}.

Definition demo_volume : Fat :=
  set_caches (fat32_volume 0) (<[2 := [demo_entry]]> ∅) (<[5 := 2]> ∅).

Definition demo_listing : list (Z * Z * FileKind * list Z) :=
  [(1, 1, KDirectory, [46]); (1, 2, KDirectory, [46; 46]); (5, 3, KRegularFile, codes "HELLO.TXT")].

Definition demo_dir_sector : list Z := demo_entry_bytes ++ repeat 0 32.

Definition lfn_pending : list FatLongDirectoryEntry :=
  [FatLongDirectoryEntry_new (lfn_frag2 66); FatLongDirectoryEntry_new (lfn_frag1 1)].

Definition fat16_demo_volume : Fat := set_fat_type (fat32_volume 0) Fat16.

Definition bytes_ok (l : list Z) : bool := forallb (fun x => (0 <=? x) && (x <? 256)) l.


(** ** Specification-side definitions *)

Fixpoint drop_pad (l : list Z) : list Z :=
  match l with
  | c :: r => if c =? 32 then drop_pad r else l
  | [] => []
  end.

(** A byte string without its trailing 0x20 pads *)
Definition rtrim_pad (l : list Z) : list Z := rev (drop_pad (rev l)).

(** The presented short name: the first name byte, then bytes 2..8 without
    trailing pads, then, when the first extension byte is not a pad, a dot
    and the extension without trailing pads. *)
Definition presented_short_name (nm : list Z) : list Z :=
  [nth 0 nm 0] ++ rtrim_pad (firstn 7 (skipn 1 nm)) ++
  (if nth 8 nm 0 =? 32 then [] else 46 :: rtrim_pad (skipn 8 nm)).

(** The cluster count of a volume, computed on unbounded integers. *)
Definition computed_cluster_count (f : Fat) : Z :=
  let b := bpb f in
  let fs := if fat_size_16 b =? 0
            then match ebpb32 f with Some e => fat_size_32 e | None => 0 end
            else fat_size_16 b in
  let ts := if total_sectors_16 b =? 0 then total_sectors_32 b else total_sectors_16 b in
  let rds := (root_entry_count b * 32 + (bytes_per_sector b - 1)) / bytes_per_sector b in
  (ts - (reserved_clusters b + num_fats b * fs + rds)) / sectors_per_cluster b.

(** The bytes of a FAT12 table [t] (12-bit entries packed two per three bytes). *)
Definition fat12_packed_byte (t : Z -> Z) (k : Z) : Z :=
  let c := 2 * (k / 3) in
  let r := k mod 3 in
  if r =? 0 then Z.land (t c) 255
  else if r =? 1 then Z.lor (Z.shiftr (t c) 8) (Z.shiftl (Z.land (t (c + 1)) 15) 4)
  else Z.shiftr (t (c + 1)) 4.

(** Sector [j] of the FAT holding the packed table [t] *)
Definition fat12_sector_bytes (t : Z -> Z) (bps j : Z) : list Z :=
  map (fun i => fat12_packed_byte t (j * bps + i)) (zrange 0 bps).

(** The first [nsec] FAT sectors of [f] hold the packed table [t]. *)
Definition fat12_table_loaded (f : Fat) (t : Z -> Z) (nsec : Z) : bool :=
  forallb (fun j =>
             match fat f !! (reserved_clusters (bpb f) + j) with
             | Some s => bool_decide (s = fat12_sector_bytes t (bytes_per_sector (bpb f)) j)
             | None => false
             end) (zrange 0 nsec).

(** Every parent recorded in the inode-to-parent map has a cached directory. *)
Definition parents_cached (f : Fat) : Prop :=
  forall i p, inode_cache f !! i = Some p -> is_Some (dir_cache f !! p).

(** A long entry that fits an assembly buffer of [n] fragments: its number
    [order & !0x40] lies in [1, n] and its name parts have 5, 6, 2 units. *)
Definition long_entry_well_placed (n : nat) (e : FatLongDirectoryEntry) : Prop :=
  0 <= order e /\ 1 <= Z.land (order e) 191 <= Z.of_nat n /\
  length (name1 e) = 5%nat /\ length (name2 e) = 6%nat /\ length (name3 e) = 2%nat.

(** A FAT12 volume whose table holds entry 0xABC for cluster 341: its 12
    bits start at byte 511 of the first FAT sector, so they straddle the
    boundary with the second FAT sector. *)
Definition straddle_table (x : Z) : Z :=
  if x =? 0 then 4080 else if x <=? 2 then 4095 else if x =? 341 then 2748 else 0.

Definition straddle_image : Image :=
  floppy_image (map (fat12_packed_byte straddle_table) (zrange 0 1024))
    hello_entry (codes "Hello, world!").

Definition straddle_volume : Fat := mounted 10 straddle_image.

(** A session on the seed image: list the root, look up HELLO.TXT (names
    compared as given), read the file and its inode. *)
Definition seed_ops : list fat_op :=
  [OpListDirectory 0; OpLookup 0 (codes "HELLO.TXT"); OpGetData 2 0 13; OpGetInode 2].

Definition seed_after_ops : Fat :=
  res_default (mounted 10 seed_image) (run_ops (fun l => l) 10 (mounted 10 seed_image) seed_ops).

(** The facts every entry cached by [read_dir_chain] carries. *)
Definition decoded_entry_ok (cf : nat) (f : Fat) (c : FatDirectoryEntryContainer) : Prop :=
  let se := short_entry c in
  hd 0 (name se) <> 0 /\ hd 0 (name se) <> 229 /\
  Z.land (attribute se) 63 <> 15 /\ Z.land (attribute se) 24 <> 24 /\
  Forall (fun e => checksum e = chksum (name se)) (long_entries c) /\
  parse_name se (long_entries c) = Ok (cached_name c) /\
  file_cluster_count cf f (cluster_number se) = Ok (cached_cluster_count c).

(** An entry listed by [readdir] for inode [ino], given the root inode and the listed directory. *)
Definition readdir_listed (root : Z) (dir : list FatDirectoryEntryContainer) (ino : Z)
    (x : Z * Z * FileKind * list Z) : Prop :=
  let '(i, _, k, nm) := x in
  i <> 0 /\
  ((ino = 1 /\ i = 1 /\ k = KDirectory /\ (nm = [46] \/ nm = [46; 46])) \/
   exists e, In e dir /\ nm = cached_name e /\
     let a := attribute (short_entry e) in
     Z.land a 2 = 0 /\ Z.land a 8 = 0 /\
     ((k = KDirectory /\ Z.land a 16 <> 0) \/
      (k = KRegularFile /\ Z.land a 16 = 0 /\ Z.land a 32 <> 0)) /\
     i = (if (container_cluster_number e =? root) || (container_cluster_number e =? 0) then 1
          else container_cluster_number e)).

(** * Theorems *)

(** ** Concrete runs on the seed images *)

(** C1 (counterexample): on the seed image, [get_data(2, 5, 100)] is not the
    8 bytes ", world!": the read is clamped at the end of the cluster-aligned
    chain content (512 bytes), not at the file size 13, so it returns 100
    bytes, ", world!" and then 92 bytes of the rest of cluster 2. *)
Lemma C1_tail_read_not_clamped_at_file_size :
  (let* f := mount_volume 10 seed_image in get_data 10 f 2 5 100)
    = Ok (Some (codes ", world!" ++ repeat 0 92)) /\
  (let* f := mount_volume 10 seed_image in get_data 10 f 2 5 100)
    <> Ok (Some (codes ", world!")).
Proof. split; vm_compute; [reflexivity | discriminate]. Qed.

(** C1 (amended): on the seed FAT12 floppy, mount succeeds,
    [list_directory(0)] returns exactly one container named "HELLO.TXT",
    [get_data(2, 0, 13)] returns the 13 bytes "Hello, world!", and
    [get_data(2, 5, 100)] returns 100 bytes: ", world!" followed by the next
    92 bytes of cluster 2 (zeros in this image). *)
Theorem C1_seed_image_scenario :
  (let* f := mount_volume 10 seed_image in
   let* (f1, d) := list_directory 10 f 0 in
   let* a := get_data 10 f1 2 0 13 in
   let* b := get_data 10 f1 2 5 100 in
   Ok (option_map (map cached_name) d, a, b))
  = Ok (Some [codes "HELLO.TXT"], Some (codes "Hello, world!"),
        Some (codes ", world!" ++ repeat 0 92)).
Proof. vm_compute. reflexivity. Qed.

(** C2 (code bug): with EBPB flags 0x0081 (bit 7 set: no mirroring, active
    FAT 1) the lookup of cluster 2 is served from the first FAT (sector 32)
    and returns its corrupted value 5, instead of the second FAT (sector
    32 + 520 = 552) whose entry is end-of-chain: the code tests bit 8 and
    takes the active FAT from bits 12..15. *)
Theorem C2_flags_0081_read_from_first_fat :
  determine_fat_entry_offset (fat32_volume 129) 2 = Ok (32, 8) /\
  fat_entry_of (fat32_volume 129) 2 = Ok 5 /\
  read_fat_entry (fat32_volume 129) 2 552 8 = Ok 268435455.
Proof. vm_compute. repeat split; reflexivity. Qed.

(** C3 (code bug): on the FAT12 floppy whose file occupies clusters 2 -> 3,
    [file_cluster_count(2)] is 3 while [read_file_full(2)] returns 1024
    bytes, 2 clusters of 512 bytes: the count decodes the entry of cluster 3
    with the parity of the start cluster 2. *)
Theorem C3_fat12_count_disagrees_with_read :
  (let* f := mount_volume 10 two_cluster_image in
   let* n := file_cluster_count 10 f 2 in
   let* d := read_file_full 10 f 2 in
   Ok (n, Z.of_nat (length d)))
  = Ok (3, 1024).
Proof. vm_compute. reflexivity. Qed.

(** C4 (code bug): the two long-name fragments of HELLO~1.TXT given in the
    wrong order (order bytes 0x01 then 0x42, checksums right) are accepted:
    the first consumed fragment has order 1 where index 2 is expected, yet
    the listed name is the long name "Hello World.txt", because the check
    reads the attribute byte, [attr & n], not the order byte. *)
Theorem C4_misordered_fragments_accepted :
  root_names 10 (lfn_image (lfn_frag1 1 ++ lfn_frag2 66))
    = Ok (Some [codes "Hello World.txt"]).
Proof. vm_compute. reflexivity. Qed.


(** C8 (counterexample): the short name "FOO" with extension " AB" presents
    as "FOO" (not "FOO.AB"): the extension is emitted only when its first
    byte is not a pad; and a first byte 0x05 ("\x05ABC    TXT") aborts the
    decoding: the byte 0xE5 put in its place is not valid UTF-8 for
    [String::from_utf8(..).unwrap()]. *)
Lemma C8_extension_and_e5_cases :
  parse_name (short_of "FOO      AB") [] = Ok (codes "FOO") /\
  parse_name (short_of "FOO      AB") [] <> Ok (codes "FOO.AB") /\
  parse_name (short_of_bytes (5 :: codes "ABC    TXT")) [] = Panic.
Proof. vm_compute. repeat split; congruence. Qed.

(** ** Monad and arithmetic facts *)

Lemma res_bind_Ok {A B : Type} (m : res A) (k : A -> res B) (b : B) :
  res_bind m k = Ok b -> exists a, m = Ok a /\ k a = Ok b.
Proof. destruct m; simpl; try discriminate; eauto. Qed.

Lemma chk_Ok bits z r : chk bits z = Ok r -> r = z /\ 0 <= z < 2 ^ bits.
Proof.
  unfold chk. destruct ((0 <=? z) && (z <? 2 ^ bits)) eqn:E; intro H; inversion H; subst.
  apply andb_true_iff in E as [E1 E2]. apply Z.leb_le in E1. apply Z.ltb_lt in E2. lia.
Qed.

Lemma chk_in bits z : 0 <= z < 2 ^ bits -> chk bits z = Ok z.
Proof.
  intros H. unfold chk.
  replace ((0 <=? z) && (z <? 2 ^ bits)) with true; [reflexivity|].
  symmetry. apply andb_true_iff. split; [apply Z.leb_le | apply Z.ltb_lt]; lia.
Qed.

Ltac inv_bind :=
  repeat match goal with
  | H : res_bind ?m ?k = Ok _ |- _ =>
      let a := fresh "v" in
      let Hm := fresh "Hm" in
      apply res_bind_Ok in H; destruct H as [a [Hm H]]; cbv beta in H
  end.

Ltac chk_facts :=
  repeat match goal with
  | H : chk _ _ = Ok _ |- _ => apply chk_Ok in H; destruct H as [? ?]; subst
  | H : u8_add _ _ = Ok _ |- _ => unfold u8_add in H
  | H : u16_add _ _ = Ok _ |- _ => unfold u16_add in H
  | H : u16_sub _ _ = Ok _ |- _ => unfold u16_sub in H
  | H : u16_mul _ _ = Ok _ |- _ => unfold u16_mul in H
  | H : u32_add _ _ = Ok _ |- _ => unfold u32_add in H
  | H : u32_sub _ _ = Ok _ |- _ => unfold u32_sub in H
  | H : u32_mul _ _ = Ok _ |- _ => unfold u32_mul in H
  | H : usize_add _ _ = Ok _ |- _ => unfold usize_add in H
  | H : usize_sub _ _ = Ok _ |- _ => unfold usize_sub in H
  | H : usize_mul _ _ = Ok _ |- _ => unfold usize_mul in H
  | H : u16_div ?a ?b = Ok _ |- _ =>
      unfold u16_div in H; destruct (b =? 0) eqn:?; [discriminate|]; inversion H; subst
  | H : u32_div ?a ?b = Ok _ |- _ =>
      unfold u32_div in H; destruct (b =? 0) eqn:?; [discriminate|]; inversion H; subst
  end.

(** ** Long-name assembly (parse_name) *)

Lemma replace_vec_section_ok (a v : list Z) (start : Z) :
  0 <= start -> start + Z.of_nat (length a) <= Z.of_nat (length v) ->
  exists v', replace_vec_section v a start = Ok v' /\ length v' = length v.
Proof.
  revert v start. induction a as [|c r IH]; intros v start H1 H2; simpl in *.
  - eauto.
  - replace ((0 <=? start) && (start <? Z.of_nat (length v))) with true.
    2:{ symmetry. apply andb_true_iff. split; [apply Z.leb_le | apply Z.ltb_lt]; lia. }
    destruct (IH (<[Z.to_nat start := c]> v) (start + 1)) as [v' [Hv' Hl]].
    + lia.
    + rewrite length_insert. lia.
    + exists v'. split; [exact Hv'|]. rewrite Hl, length_insert. reflexivity.
Qed.

Lemma land191_bound (a : Z) : 0 <= a -> 0 <= Z.land a 191 < 256.
Proof.
  intros Ha. assert (H0 : 0 <= Z.land a 191) by (apply Z.land_nonneg; lia).
  split; [exact H0|].
  destruct (Z.eq_dec (Z.land a 191) 0) as [E|Hnz]; [lia|].
  change 256 with (2 ^ 8). apply Z.log2_lt_pow2; [lia|].
  pose proof (Z.log2_land a 191 Ha ltac:(lia)) as Hl.
  pose proof (Z.le_min_r (Z.log2 a) (Z.log2 191)) as Hm.
  change (Z.log2 191) with 7 in *. lia.
Qed.

Lemma place_long_entry_ok (v : list Z) (e : FatLongDirectoryEntry) (n : nat) :
  length v = (n * 13)%nat -> long_entry_well_placed n e ->
  exists v', place_long_entry v e = Ok v' /\ length v' = length v.
Proof.
  intros Hv (Ho & Hn & H1 & H2 & H3).
  pose proof (land191_bound (order e) Ho) as Hb.
  unfold place_long_entry.
  set (en := Z.land (order e) 191) in *.
  unfold usize_sub, usize_mul, usize_add.
  rewrite (chk_in 64 (en - 1)) by (split; [lia|]; apply Z.lt_le_trans with 256; [lia|]; vm_compute; discriminate).
  simpl res_bind at 1.
  rewrite (chk_in 64 ((en - 1) * 13)) by (split; [lia|]; apply Z.lt_le_trans with 4000; [lia|]; vm_compute; discriminate).
  simpl res_bind at 1.
  destruct (replace_vec_section_ok (name1 e) v ((en - 1) * 13)) as [v1 [E1 L1]]; [lia|rewrite H1, Hv; lia|].
  rewrite E1. simpl res_bind at 1.
  rewrite (chk_in 64 ((en - 1) * 13 + 5)) by (split; [lia|]; apply Z.lt_le_trans with 4000; [lia|]; vm_compute; discriminate).
  simpl res_bind at 1.
  destruct (replace_vec_section_ok (name2 e) v1 ((en - 1) * 13 + 5)) as [v2 [E2 L2]]; [lia|rewrite H2, L1, Hv; lia|].
  rewrite E2. simpl res_bind at 1.
  rewrite (chk_in 64 ((en - 1) * 13 + 11)) by (split; [lia|]; apply Z.lt_le_trans with 4000; [lia|]; vm_compute; discriminate).
  simpl res_bind.
  destruct (replace_vec_section_ok (name3 e) v2 ((en - 1) * 13 + 11)) as [v3 [E3 L3]]; [lia|rewrite H3, L2, L1, Hv; lia|].
  exists v3. split; [exact E3|]. congruence.
Qed.

Lemma place_long_entries_ok (les : list FatLongDirectoryEntry) (v : list Z) (n : nat) :
  length v = (n * 13)%nat -> (forall e, In e les -> long_entry_well_placed n e) ->
  exists v', place_long_entries v les = Ok v' /\ length v' = length v.
Proof.
  revert v. induction les as [|e r IH]; intros v Hv Hall; simpl.
  - eauto.
  - destruct (place_long_entry_ok v e n Hv (Hall e (or_introl eq_refl))) as [v1 [E1 L1]].
    rewrite E1. simpl.
    destruct (IH v1) as [v' [E' L']]; [congruence | intros; apply Hall; now right |].
    exists v'. split; [exact E' | congruence].
Qed.

Lemma position_zero_None (l : list Z) : position_zero l = None -> Forall (fun u => u <> 0) l.
Proof.
  induction l as [|x r IH]; simpl; intros H; constructor.
  - destruct (x =? 0) eqn:E; [discriminate|]. apply Z.eqb_neq. exact E.
  - destruct (x =? 0); [discriminate|]. destruct (position_zero r); [discriminate|]. auto.
Qed.

Lemma position_zero_Forall (l : list Z) : Forall (fun u => u <> 0) l -> position_zero l = None.
Proof.
  induction 1 as [|x r Hx _ IH]; simpl; [reflexivity|].
  replace (x =? 0) with false by (symmetry; apply Z.eqb_neq; exact Hx). rewrite IH. reflexivity.
Qed.

Lemma position_zero_Some (l : list Z) (i : nat) :
  position_zero l = Some i -> nth i l 1 = 0 /\ forall j, (j < i)%nat -> nth j l 0 <> 0.
Proof.
  revert i. induction l as [|x r IH]; simpl; intros i H; [discriminate|].
  destruct (x =? 0) eqn:E.
  - inversion H; subst. apply Z.eqb_eq in E. split; [exact E | intros; lia].
  - destruct (position_zero r) as [k|] eqn:Er; [|discriminate]. inversion H; subst.
    destruct (IH k eq_refl) as [Hk Hlt]. split; [exact Hk|].
    intros [|j] Hj; simpl; [apply Z.eqb_neq; exact E | apply Hlt; lia].
Qed.

(** C10: with [n >= 1] fragments whose numbers [order & !0x40] lie in
    [1, n], the decoder assembles [13 * n] UTF-16 units; if one of them is
    0x0000 the name is the decoding of the units before the first such
    unit; if none is (a long name filling all its fragments), decoding
    aborts. *)
Theorem C10_long_name_needs_terminator :
  forall (se : FatDirectoryEntry) (les : list FatLongDirectoryEntry),
    les <> [] ->
    (forall e, In e les -> long_entry_well_placed (length les) e) ->
    exists v, place_long_entries (repeat 0 (length les * 13)) les = Ok v /\
      length v = (length les * 13)%nat /\
      (forall i, position_zero v = Some i ->
         nth i v 1 = 0 /\ (forall j, (j < i)%nat -> nth j v 0 <> 0) /\
         parse_name se les = Ok (decode_utf16 (firstn i v))) /\
      (Forall (fun u => u <> 0) v -> parse_name se les = Panic).
Proof.
  intros se les Hne Hall.
  destruct (place_long_entries_ok les (repeat 0 (length les * 13)) (length les))
    as [v [Ev Lv]]; [apply repeat_length | exact Hall |].
  rewrite repeat_length in Lv.
  exists v. split; [exact Ev|]. split; [exact Lv|].
  assert (Hp : parse_name se les =
                 res_bind (unwrap (position_zero v)) (fun index => Ok (decode_utf16 (firstn index v)))).
  { destruct les as [|e r]; [congruence|]. unfold parse_name, parse_long_name.
    rewrite Ev. reflexivity. }
  split.
  - intros i Hi. destruct (position_zero_Some v i Hi) as [H0 Hlt].
    split; [exact H0|]. split; [exact Hlt|]. rewrite Hp, Hi. reflexivity.
  - intros Hf. rewrite Hp, (position_zero_Forall v Hf). reflexivity.
Qed.


(** ** Short-name presentation (parse_name) *)

Lemma find_end_len (r : list Z) (k : nat) :
  find_end_index r k (k + length r) = length (drop_pad r).
Proof.
  revert k. induction r as [|c r IH]; intros k; simpl; [reflexivity|].
  destruct (c =? 32) eqn:E; simpl.
  - replace (k + S (length r))%nat with (S k + length r)%nat by lia. apply IH.
  - lia.
Qed.

Lemma drop_pad_suffix (r : list Z) : exists p, r = p ++ drop_pad r.
Proof.
  induction r as [|c r [p Hp]]; simpl; [exists []; reflexivity|].
  destruct (c =? 32); [exists (c :: p); simpl; congruence | exists []; reflexivity].
Qed.

Lemma firstn_find_end (l : list Z) :
  firstn (find_end_index (rev l) 0 (length l)) l = rtrim_pad l.
Proof.
  pose proof (find_end_len (rev l) 0) as H. rewrite length_rev in H. simpl in H. rewrite H.
  destruct (drop_pad_suffix (rev l)) as [p Hp].
  unfold rtrim_pad.
  assert (Hl : l = rev (drop_pad (rev l)) ++ rev p).
  { rewrite <- (rev_involutive l) at 1. rewrite Hp at 1. rewrite rev_app_distr. reflexivity. }
  rewrite Hl at 2. rewrite firstn_app, length_rev, Nat.sub_diag, firstn_O, app_nil_r.
  rewrite <- length_rev, firstn_all. reflexivity.
Qed.

Lemma from_utf8_ascii (l : list Z) : Forall (fun b => 0 <= b < 128) l -> from_utf8 l = Some l.
Proof.
  induction 1 as [|b r Hb _ IH]; simpl; [reflexivity|].
  replace (b <? 128) with true by (symmetry; apply Z.ltb_lt; lia). rewrite IH. reflexivity.
Qed.

Lemma ext_rtrim (e0 e1 e2 : Z) : e0 <> 32 ->
  [e0] ++ (if negb (e2 =? 32) then [e1; e2] else if negb (e1 =? 32) then [e1] else [])
  = rtrim_pad [e0; e1; e2].
Proof.
  intros H0. unfold rtrim_pad. simpl.
  destruct (e2 =? 32) eqn:E2; destruct (e1 =? 32) eqn:E1; simpl;
  replace (e0 =? 32) with false by (symmetry; apply Z.eqb_neq; exact H0); reflexivity.
Qed.

Lemma Forall_rtrim_pad (P : Z -> Prop) (l : list Z) : Forall P l -> Forall P (rtrim_pad l).
Proof.
  intros H. unfold rtrim_pad. apply Forall_rev.
  destruct (drop_pad_suffix (rev l)) as [p Hp].
  apply Forall_rev in H. rewrite Hp in H. apply Forall_app in H. tauto.
Qed.

Lemma buf1_eq (b0 l : list Z) :
  (if negb (Nat.eqb (find_end_index (rev l) 0 (length l)) 0)
   then b0 ++ firstn (find_end_index (rev l) 0 (length l)) l else b0) = b0 ++ rtrim_pad l.
Proof.
  rewrite <- firstn_find_end.
  destruct (Nat.eqb (find_end_index (rev l) 0 (length l)) 0) eqn:E; simpl.
  - apply Nat.eqb_eq in E. rewrite E. simpl. rewrite app_nil_r. reflexivity.
  - reflexivity.
Qed.

(** C8 (amended): for an 11-byte name of ASCII bytes whose first byte is
    not 0x05, the presented name is the first byte, then name bytes 2..8
    without trailing pads, then, only when the first extension byte is not
    a pad, a dot and the extension without its trailing pads. *)
Theorem C8_short_name_presentation :
  forall se : FatDirectoryEntry,
    length (name se) = 11%nat ->
    Forall (fun b => 0 <= b < 128) (name se) ->
    nth 0 (name se) 0 <> 5 ->
    parse_name se [] = Ok (presented_short_name (name se)).
Proof.
  intros se Hlen Hascii H5. simpl. unfold parse_short_name.
  remember (name se) as nm eqn:Hnm. clear Hnm.
  do 11 (destruct nm as [|? nm]; [discriminate|]).
  destruct nm; [|discriminate]. clear Hlen.
  change (slice [z; z0; z1; z2; z3; z4; z5; z6; z7; z8; z9] 1 8) with (@Ok (list Z) [z0; z1; z2; z3; z4; z5; z6]).
  change (slice [z; z0; z1; z2; z3; z4; z5; z6; z7; z8; z9] 8 11) with (@Ok (list Z) [z7; z8; z9]).
  change (idx [z; z0; z1; z2; z3; z4; z5; z6; z7; z8; z9] 0) with (@Ok Z z).
  cbn [res_bind].
  change (idx [z7; z8; z9] 0) with (@Ok Z z7).
  change (idx [z7; z8; z9] 1) with (@Ok Z z8).
  change (idx [z7; z8; z9] 2) with (@Ok Z z9).
  cbn [res_bind].
  rewrite buf1_eq.
  simpl in H5. replace (z =? 5) with false by (symmetry; apply Z.eqb_neq; exact H5).
  repeat match goal with H : Forall _ (_ :: _) |- _ => inversion H; subst; clear H end.
  unfold presented_short_name. cbn [nth firstn skipn].
  destruct (z7 =? 32) eqn:E7; cbn [negb].
  - rewrite from_utf8_ascii.
    + rewrite app_nil_r. reflexivity.
    + apply Forall_app; split; [constructor; auto | apply Forall_rtrim_pad; repeat constructor; lia].
  - change ([46; z7] ++ (if negb (z9 =? 32) then [z8; z9] else if negb (z8 =? 32) then [z8] else []))
      with (46 :: ([z7] ++ (if negb (z9 =? 32) then [z8; z9] else if negb (z8 =? 32) then [z8] else []))).
    rewrite ext_rtrim by (apply Z.eqb_neq; exact E7).
    rewrite from_utf8_ascii.
    + rewrite <- app_assoc. reflexivity.
    + repeat (first [apply Forall_rtrim_pad | apply Forall_nil | apply Forall_cons; split | apply Forall_app; split]); lia.
Qed.

Lemma C8_short_name_presentation_witness :
  (length (name (short_of "TEST    TXT")) = 11%nat /\
   Forall (fun b => 0 <= b < 128) (name (short_of "TEST    TXT")) /\
   nth 0 (name (short_of "TEST    TXT")) 0 <> 5) /\
  parse_name (short_of "TEST    TXT") [] = Ok (presented_short_name (name (short_of "TEST    TXT"))).
Proof.
  assert (H : length (name (short_of "TEST    TXT")) = 11%nat /\
              Forall (fun b => 0 <= b < 128) (name (short_of "TEST    TXT")) /\
              nth 0 (name (short_of "TEST    TXT")) 0 <> 5).
  { vm_compute. split; [reflexivity|]. split; [repeat constructor; discriminate | discriminate]. }
  split; [exact H|]. destruct H as (H1 & H2 & H3).
  exact (C8_short_name_presentation (short_of "TEST    TXT") H1 H2 H3).
Defined.

Lemma C10_long_name_needs_terminator_witness :
  let les := [FatLongDirectoryEntry_new (lfn_frag2 65)] in
  let se := short_of "HELLO~1 TXT" in
  (les <> [] /\ (forall e, In e les -> long_entry_well_placed (length les) e)) /\
  exists v, place_long_entries (repeat 0 (length les * 13)) les = Ok v /\
      length v = (length les * 13)%nat /\
      (forall i, position_zero v = Some i ->
         nth i v 1 = 0 /\ (forall j, (j < i)%nat -> nth j v 0 <> 0) /\
         parse_name se les = Ok (decode_utf16 (firstn i v))) /\
      (Forall (fun u => u <> 0) v -> parse_name se les = Panic).
Proof.
  intros les se.
  assert (H1 : les <> []) by discriminate.
  assert (H2 : forall e, In e les -> long_entry_well_placed (length les) e).
  { intros e [<- | []]. unfold long_entry_well_placed. vm_compute.
    split; [discriminate|]. split; [split; discriminate|]. repeat split. }
  split; [split; [exact H1 | exact H2]|].
  exact (C10_long_name_needs_terminator se les H1 H2).
Defined.

(** ** FAT12 entry decoding *)


Lemma lor_shiftl_add (a b k : Z) :
  0 <= k -> 0 <= a < 2 ^ k -> 0 <= b -> Z.lor a (Z.shiftl b k) = a + b * 2 ^ k.
Proof.
  intros Hk Ha Hb.
  assert (H0 : Z.land a (Z.shiftl b k) = 0).
  { apply Z.bits_inj'. intros i Hi. rewrite Z.land_spec, Z.bits_0.
    destruct (Z.lt_ge_cases i k) as [Hik|Hik].
    - rewrite Z.shiftl_spec_low by lia. apply andb_false_r.
    - rewrite <- (Z.mod_small a (2 ^ k)) by lia.
      rewrite Z.mod_pow2_bits_high by lia. reflexivity. }
  rewrite <- Z.lxor_lor by exact H0. rewrite <- Z.add_nocarry_lxor by exact H0.
  rewrite Z.shiftl_mul_pow2 by lia. reflexivity.
Qed.

Lemma fat12_packed_byte_val (t : Z -> Z) (k : Z) :
  (forall x, 0 <= t x < 4096) ->
  fat12_packed_byte t k =
    if k mod 3 =? 0 then t (2 * (k / 3)) mod 256
    else if k mod 3 =? 1 then t (2 * (k / 3)) / 256 + 16 * (t (2 * (k / 3) + 1) mod 16)
    else t (2 * (k / 3) + 1) / 16.
Proof.
  intros Ht. unfold fat12_packed_byte.
  destruct (k mod 3 =? 0); [|destruct (k mod 3 =? 1)].
  - change 255 with (Z.ones 8). rewrite Z.land_ones by lia. reflexivity.
  - change 15 with (Z.ones 4). rewrite Z.land_ones by lia.
    rewrite Z.shiftr_div_pow2 by lia.
    pose proof (Ht (2 * (k / 3))). pose proof (Ht (2 * (k / 3) + 1)).
    rewrite lor_shiftl_add.
    + change (2 ^ 8) with 256. change (2 ^ 4) with 16. lia.
    + lia.
    + change (2 ^ 8) with 256. change (2 ^ 4) with 16. split; [apply Z.div_pos|apply Z.div_lt_upper_bound]; lia.
    + apply Z.mod_pos_bound. lia.
  - rewrite Z.shiftr_div_pow2 by lia. reflexivity.
Qed.

Lemma fat12_packed_byte_bound (t : Z -> Z) (k : Z) :
  (forall x, 0 <= t x < 4096) -> 0 <= fat12_packed_byte t k < 256.
Proof.
  intros Ht. rewrite fat12_packed_byte_val by exact Ht.
  pose proof (Ht (2 * (k / 3))). pose proof (Ht (2 * (k / 3) + 1)).
  destruct (k mod 3 =? 0); [|destruct (k mod 3 =? 1)].
  - apply Z.mod_pos_bound. lia.
  - pose proof (Z.mod_pos_bound (t (2 * (k / 3) + 1)) 16 ltac:(lia)).
    assert (0 <= t (2 * (k / 3)) / 256 < 16) by (split; [apply Z.div_pos|apply Z.div_lt_upper_bound]; lia).
    lia.
  - split; [apply Z.div_pos|apply Z.div_lt_upper_bound]; lia.
Qed.

Lemma fat12_sector_bytes_nth (t : Z -> Z) (bps j i : Z) :
  0 <= i < bps ->
  nth_error (fat12_sector_bytes t bps j) (Z.to_nat i) = Some (fat12_packed_byte t (j * bps + i)).
Proof.
  intros Hi. unfold fat12_sector_bytes, zrange.
  rewrite !nth_error_map, nth_error_seq.
  replace (Z.to_nat i <? Z.to_nat (bps - 0))%nat with true
    by (symmetry; apply Nat.ltb_lt; lia).
  simpl. f_equal. f_equal. lia.
Qed.

(** The 12-bit decoding of two consecutive packed bytes *)
Lemma fat12_decode_pair (t : Z -> Z) (c : Z) :
  (forall x, 0 <= t x < 4096) -> 0 <= c ->
  let off := c + c / 2 in
  let v := Z.lor (fat12_packed_byte t off) (Z.shiftl (fat12_packed_byte t (off + 1)) 8) in
  (if negb (Z.land c 1 =? 0) then Z.shiftr v 4 else Z.land v 4095) = t c.
Proof.
  intros Ht Hc off v.
  pose proof (fat12_packed_byte_bound t off Ht) as Hb0.
  pose proof (fat12_packed_byte_bound t (off + 1) Ht) as Hb1.
  subst v. rewrite lor_shiftl_add by (change (2 ^ 8) with 256; lia).
  change (2 ^ 8) with 256.
  change 1 with (Z.ones 1) at 1. rewrite Z.land_ones by lia. change (2 ^ 1) with 2.
  rewrite !fat12_packed_byte_val by exact Ht.
  destruct (Z.mod_pos_bound c 2 ltac:(lia)) as [Hm1 Hm2].
  pose proof (Z.div_mod c 2 ltac:(lia)) as Hdm.
  set (m := c / 2) in *. subst off.
  assert (Hcases : c mod 2 = 0 \/ c mod 2 = 1) by lia.
  destruct Hcases as [E|E]; rewrite E; cbn [Z.eqb negb].
  - replace (c + m) with (0 + m * 3) by lia.
    replace (0 + m * 3 + 1) with (1 + m * 3) by lia.
    rewrite !Z.mod_add, !Z.div_add by lia.
    change (0 mod 3) with 0. change (1 mod 3) with 1.
    change (0 / 3) with 0. change (1 / 3) with 0. cbn [Z.eqb Pos.eqb].
    rewrite !Z.add_0_l. replace (2 * m) with c by lia.
    pose proof (Ht c). pose proof (Ht (c + 1)).
    change 4095 with (Z.ones 12). rewrite Z.land_ones by lia. change (2 ^ 12) with 4096.
    replace (t c mod 256 + (t c / 256 + 16 * (t (c + 1) mod 16)) * 256)
      with (t c + (t (c + 1) mod 16) * 4096).
    + rewrite Z.mod_add by lia. apply Z.mod_small. lia.
    + pose proof (Z.div_mod (t c) 256 ltac:(lia)). lia.
  - replace (c + m) with (1 + m * 3) by lia.
    replace (1 + m * 3 + 1) with (2 + m * 3) by lia.
    rewrite !Z.mod_add, !Z.div_add by lia.
    change (1 mod 3) with 1. change (2 mod 3) with 2.
    change (1 / 3) with 0. change (2 / 3) with 0. cbn [Z.eqb Pos.eqb].
    rewrite !Z.add_0_l. replace (2 * m + 1) with c by lia.
    pose proof (Ht c). pose proof (Ht (2 * m)).
    rewrite Z.shiftr_div_pow2 by lia. change (2 ^ 4) with 16.
    replace (t (2 * m) / 256 + 16 * (t c mod 16) + t c / 16 * 256)
      with ((t c mod 16 + 16 * (t c / 16)) * 16 + t (2 * m) / 256) by ring.
    rewrite Z.div_add_l by lia.
    rewrite (Z.div_small (t (2 * m) / 256) 16).
    + pose proof (Z.div_mod (t c) 16 ltac:(lia)). lia.
    + split; [apply Z.div_pos|apply Z.div_lt_upper_bound]; lia.
Qed.

Lemma In_zrange (a b x : Z) : a <= x < b -> In x (zrange a b).
Proof.
  intros H. unfold zrange. apply in_map_iff. exists (Z.to_nat (x - a)).
  split; [lia|]. apply in_seq. lia.
Qed.

Lemma fat12_table_sector (f : Fat) (t : Z -> Z) (n j : Z) :
  fat12_table_loaded f t n = true -> 0 <= j < n ->
  fat f !! (reserved_clusters (bpb f) + j) = Some (fat12_sector_bytes t (bytes_per_sector (bpb f)) j).
Proof.
  intros H Hj. unfold fat12_table_loaded in H. rewrite forallb_forall in H.
  specialize (H j (In_zrange 0 n j Hj)).
  destruct (fat f !! (reserved_clusters (bpb f) + j)); [|discriminate].
  apply bool_decide_eq_true in H. congruence.
Qed.

(** C5: on a FAT12 volume whose FAT sectors hold a table [t] of 12-bit
    entries packed two per three bytes, the entry of cluster [c] lies at
    offset [c + c/2] (sector [reserved + (c + c/2) / bps], byte
    [(c + c/2) mod bps]) and is decoded as [t c]: the u16 of the bytes at
    that offset and the next one, the latter taken from the first byte of the
    next FAT sector when the offset is [bps - 1], shifted right by 4 for odd
    [c] and masked with 0x0FFF for even [c]. *)
Theorem C5_fat12_entry_decoding :
  forall (f : Fat) (t : Z -> Z) (c : Z),
    fat_type f = Fat12 ->
    0 < bytes_per_sector (bpb f) < 65536 ->
    0 <= reserved_clusters (bpb f) < 65536 ->
    0 <= c < 2 ^ 28 ->
    (forall x, 0 <= t x < 4096) ->
    fat12_table_loaded f t ((c + c / 2 + 1) / bytes_per_sector (bpb f) + 1) = true ->
    determine_fat_entry_offset f c =
      Ok (reserved_clusters (bpb f) + (c + c / 2) / bytes_per_sector (bpb f),
          (c + c / 2) mod bytes_per_sector (bpb f)) /\
    fat_entry_of f c = Ok (t c).
Proof.
  intros f t c Hty Hbps Hrsv Hc Ht Hload.
  set (bps := bytes_per_sector (bpb f)) in *.
  set (rsv := reserved_clusters (bpb f)) in *.
  set (off := c + c / 2) in *.
  assert (Hh : 0 <= c / 2 <= c) by (split; [apply Z.div_pos | apply Z.div_le_upper_bound]; lia).
  assert (Hq : 0 <= off / bps <= off) by (split; [apply Z.div_pos | apply Z.div_le_upper_bound]; nia).
  pose proof (Z.mod_pos_bound off bps ltac:(lia)) as Ho.
  pose proof (Z.div_mod off bps ltac:(lia)) as Hdm.
  assert (Hdet : determine_fat_entry_offset f c = Ok (rsv + off / bps, off mod bps)).
  { unfold determine_fat_entry_offset. rewrite Hty. unfold u32_div, u32_add, u32_rem.
    change (2 =? 0) with false. cbn [res_bind].
    rewrite (chk_in 32 (c + c / 2)) by (change (2 ^ 32) with 4294967296; lia).
    cbn [res_bind]. fold off bps.
    replace (bps =? 0) with false by (symmetry; apply Z.eqb_neq; lia).
    cbn [res_bind]. fold rsv.
    rewrite (chk_in 32 (rsv + off / bps)) by (change (2 ^ 32) with 4294967296; lia).
    reflexivity. }
  split; [exact Hdet|].
  unfold fat_entry_of. rewrite Hdet. cbn [res_bind].
  unfold read_fat_entry.
  assert (Hs0 := fat12_table_sector f t _ (off / bps) Hload).
  fold rsv bps in Hs0. rewrite Hs0.
  2:{ split; [lia|]. assert (off / bps <= (off + 1) / bps) by (apply Z.div_le_mono; lia). lia. }
  cbn [unwrap res_bind]. rewrite Hty. fold bps.
  unfold u32_sub. rewrite (chk_in 32 (bps - 1)) by (change (2 ^ 32) with 4294967296; lia).
  cbn [res_bind].
  pose proof (fat12_decode_pair t c Ht ltac:(lia)) as D. cbv zeta in D. fold off in D.
  destruct (off mod bps =? bps - 1) eqn:Eo.
  - apply Z.eqb_eq in Eo.
    assert (Hn : (off + 1) / bps = off / bps + 1).
    { replace (off + 1) with ((off / bps + 1) * bps) by lia. apply Z.div_mul. lia. }
    unfold u32_add. rewrite (chk_in 32 (rsv + off / bps + 1)) by (change (2 ^ 32) with 4294967296; lia).
    cbn [res_bind].
    replace (rsv + off / bps + 1) with (rsv + (off / bps + 1)) by lia.
    assert (Hs1 := fat12_table_sector f t _ (off / bps + 1) Hload).
    fold rsv bps in Hs1. rewrite Hs1 by lia.
    cbn [unwrap res_bind]. fold bps.
    unfold idx.
    replace (off mod bps <? 0) with false by (symmetry; apply Z.ltb_ge; lia).
    change (0 <? 0) with false. cbn [unwrap res_bind].
    rewrite (fat12_sector_bytes_nth t bps (off / bps) (off mod bps)) by lia.
    change (Z.to_nat 0) with (Z.to_nat (0 : Z)).
    rewrite (fat12_sector_bytes_nth t bps (off / bps + 1) 0) by lia.
    cbn [unwrap res_bind].
    replace (off / bps * bps + off mod bps) with off by lia.
    replace ((off / bps + 1) * bps + 0) with (off + 1) by lia.
    rewrite <- D. destruct (negb _); reflexivity.
  - apply Z.eqb_neq in Eo.
    unfold idx.
    replace (off mod bps <? 0) with false by (symmetry; apply Z.ltb_ge; lia).
    cbn [unwrap res_bind].
    rewrite (fat12_sector_bytes_nth t bps (off / bps) (off mod bps)) by lia.
    cbn [unwrap res_bind].
    unfold usize_add. rewrite (chk_in 64 (off mod bps + 1)) by (change (2 ^ 64) with 18446744073709551616; lia).
    cbn [res_bind].
    replace (off mod bps + 1 <? 0) with false by (symmetry; apply Z.ltb_ge; lia).
    rewrite (fat12_sector_bytes_nth t bps (off / bps) (off mod bps + 1)) by lia.
    cbn [unwrap res_bind].
    replace (off / bps * bps + off mod bps) with off by lia.
    replace (off / bps * bps + (off mod bps + 1)) with (off + 1) by lia.
    rewrite <- D. destruct (negb _); reflexivity.
Qed.

Lemma C5_fat12_entry_decoding_witness :
  (fat_type straddle_volume = Fat12 /\
   0 < bytes_per_sector (bpb straddle_volume) < 65536 /\
   0 <= reserved_clusters (bpb straddle_volume) < 65536 /\
   0 <= 341 < 2 ^ 28 /\
   (forall x, 0 <= straddle_table x < 4096) /\
   fat12_table_loaded straddle_volume straddle_table ((341 + 341 / 2 + 1) / bytes_per_sector (bpb straddle_volume) + 1) = true) /\
  (determine_fat_entry_offset straddle_volume 341 =
     Ok (reserved_clusters (bpb straddle_volume) + (341 + 341 / 2) / bytes_per_sector (bpb straddle_volume),
         (341 + 341 / 2) mod bytes_per_sector (bpb straddle_volume)) /\
   fat_entry_of straddle_volume 341 = Ok (straddle_table 341)).
Proof.
  assert (H1 : fat_type straddle_volume = Fat12) by (vm_compute; reflexivity).
  assert (H2 : 0 < bytes_per_sector (bpb straddle_volume) < 65536) by (vm_compute; split; reflexivity).
  assert (H3 : 0 <= reserved_clusters (bpb straddle_volume) < 65536) by (vm_compute; split; [discriminate | reflexivity]).
  assert (H4 : 0 <= 341 < 2 ^ 28) by lia.
  assert (H5 : forall x, 0 <= straddle_table x < 4096).
  { intros x. unfold straddle_table.
    destruct (x =? 0); [lia|]. destruct (x <=? 2); [lia|]. destruct (x =? 341); lia. }
  assert (H6 : fat12_table_loaded straddle_volume straddle_table ((341 + 341 / 2 + 1) / bytes_per_sector (bpb straddle_volume) + 1) = true)
    by (vm_compute; reflexivity).
  split; [exact (conj H1 (conj H2 (conj H3 (conj H4 (conj H5 H6)))))|].
  exact (C5_fat12_entry_decoding straddle_volume straddle_table 341 H1 H2 H3 H4 H5 H6).
Defined.

(** ** Mounting and the FAT type *)

Lemma read_dir_chain_frame (cf : nat) (f f' : Fat) (inode : Z) (sector : list Z) (start : Z) :
  read_dir_chain cf f inode sector start = Ok f' ->
  bpb f' = bpb f /\ ebpb32 f' = ebpb32 f /\ fat_type f' = fat_type f /\ fat f' = fat f /\ image f' = image f.
Proof.
  unfold read_dir_chain. intros H. inv_bind. inversion H; subst. simpl. auto.
Qed.

Lemma read_root_dir_frame (fuel : nat) (f f' : Fat) :
  read_root_dir fuel f = Ok f' ->
  bpb f' = bpb f /\ ebpb32 f' = ebpb32 f /\ fat_type f' = fat_type f /\ fat f' = fat f /\ image f' = image f.
Proof.
  unfold read_root_dir. intros H.
  destruct (fat_type f) eqn:Et; inv_bind; rewrite <- Et; eapply read_dir_chain_frame; eassumption.
Qed.

Lemma determine_fat_type_ok (g : Fat) (cc : Z) (t : FatType) :
  determine_fat_type g = Ok (cc, t) ->
  t = fat_type_of_count cc /\ cc = computed_cluster_count g.
Proof.
  unfold determine_fat_type, root_dir_sectors, computed_cluster_count. intros H.
  inv_bind. inversion H; subst. split; [reflexivity|].
  chk_facts.
  destruct (fat_size_16 (bpb g) =? 0) eqn:E16; cbn [negb] in *.
  - destruct (ebpb32 g) as [e|]; cbn [unwrap res_bind] in *; [|discriminate].
    inversion Hm0; subst. 
    destruct (total_sectors_16 (bpb g) =? 0); cbn [negb] in *; reflexivity.
  - inversion Hm0; subst.
    destruct (total_sectors_16 (bpb g) =? 0); cbn [negb] in *; reflexivity.
Qed.

Lemma read_reserved_ok (im : Image) (f : Fat) :
  read_reserved im = Ok f ->
  fat_type f = fat_type_of_count (computed_cluster_count f) /\
  dir_cache f = ∅ /\ inode_cache f = ∅.
Proof.
  unfold read_reserved. intros H.
  destruct (img_len im <? 512); [discriminate|].
  inv_bind. cbv zeta in H.
  match type of H with (if ?b then _ else _) = _ => destruct b; [discriminate|] end.
  inv_bind. destruct v0 as [cc t].
  match type of H with (if ?b then _ else _) = _ => destruct b; [discriminate|] end.
  inv_bind. inversion H; subst. clear H.
  apply determine_fat_type_ok in Hm0 as [-> ->].
  split; [reflexivity | split; reflexivity].
Qed.

(** C6: on every mounted volume, the FAT type is fixed by the cluster count
    [(total - (reserved + num_fats * fat_size + root_dir_sectors)) / spc]:
    below 4085 FAT12, from 4085 below 65525 FAT16, from 65525 FAT32. *)
Theorem C6_fat_type_by_cluster_count :
  forall (fuel : nat) (im : Image) (f : Fat),
    mount_volume fuel im = Ok f ->
    (computed_cluster_count f < 4085 /\ fat_type f = Fat12) \/
    (4085 <= computed_cluster_count f < 65525 /\ fat_type f = Fat16) \/
    (65525 <= computed_cluster_count f /\ fat_type f = Fat32).
Proof.
  intros fuel im f H. unfold mount_volume in H. inv_bind.
  destruct (read_reserved_ok im v Hm) as [Ht _].
  destruct (read_root_dir_frame fuel v f H) as (Hb & He & Hty & _).
  assert (Hcc : computed_cluster_count f = computed_cluster_count v)
    by (unfold computed_cluster_count; rewrite Hb, He; reflexivity).
  rewrite Hty, Ht, Hcc. unfold fat_type_of_count.
  destruct (computed_cluster_count v <? 4085) eqn:E1; [left; split; [apply Z.ltb_lt; exact E1 | reflexivity]|].
  apply Z.ltb_ge in E1.
  destruct (computed_cluster_count v <? 65525) eqn:E2; right;
    [left; split; [split; [exact E1 | apply Z.ltb_lt; exact E2] | reflexivity]
    |right; split; [apply Z.ltb_ge; exact E2 | reflexivity]].
Qed.

Lemma C6_fat_type_by_cluster_count_witness :
  mount_volume 10 seed_image = Ok (mounted 10 seed_image) /\
  ((computed_cluster_count (mounted 10 seed_image) < 4085 /\ fat_type (mounted 10 seed_image) = Fat12) \/
   (4085 <= computed_cluster_count (mounted 10 seed_image) < 65525 /\ fat_type (mounted 10 seed_image) = Fat16) \/
   (65525 <= computed_cluster_count (mounted 10 seed_image) /\ fat_type (mounted 10 seed_image) = Fat32)).
Proof.
  assert (H : mount_volume 10 seed_image = Ok (mounted 10 seed_image)) by (vm_compute; reflexivity).
  split; [exact H|].
  exact (C6_fat_type_by_cluster_count 10 seed_image (mounted 10 seed_image) H).
Defined.

(** ** Chain traversal *)







(** ** Directory and inode caches *)

Lemma cache_parents_lookup (es : list FatDirectoryEntryContainer) (ic : gmap Z Z) (inode i p : Z) :
  cache_parents ic es inode !! i = Some p -> p = inode \/ ic !! i = Some p.
Proof.
  unfold cache_parents. revert ic. induction es as [|e r IH]; intros ic H; simpl in H.
  - right. exact H.
  - destruct (IH _ H) as [Hp|Hp]; [left; exact Hp|].
    destruct (decide (container_cluster_number e = i)) as [<-|Hne].
    + rewrite lookup_insert_eq in Hp. left. congruence.
    + rewrite lookup_insert_ne in Hp by exact Hne. right. exact Hp.
Qed.

Lemma read_dir_chain_parents (cf : nat) (f f' : Fat) (inode : Z) (sector : list Z) (start : Z) :
  parents_cached f -> read_dir_chain cf f inode sector start = Ok f' ->
  parents_cached f' /\ is_Some (dir_cache f' !! inode).
Proof.
  intros Hpc H. unfold read_dir_chain in H. inv_bind. inversion H; subst. clear H.
  split.
  - intros i p Hi. simpl in *.
    destruct (cache_parents_lookup _ _ _ _ _ Hi) as [->|Hp].
    + rewrite lookup_insert_eq. eauto.
    + destruct (decide (inode = p)) as [<-|Hne].
      * rewrite lookup_insert_eq. eauto.
      * rewrite lookup_insert_ne by exact Hne. exact (Hpc i p Hp).
  - simpl. rewrite lookup_insert_eq. eauto.
Qed.

Lemma read_root_dir_parents (fuel : nat) (f f' : Fat) :
  parents_cached f -> read_root_dir fuel f = Ok f' -> parents_cached f'.
Proof.
  intros Hpc H. unfold read_root_dir in H.
  destruct (fat_type f); inv_bind; eapply read_dir_chain_parents; eassumption.
Qed.

Lemma mount_volume_parents (fuel : nat) (im : Image) (f : Fat) :
  mount_volume fuel im = Ok f -> parents_cached f.
Proof.
  intros H. unfold mount_volume in H. inv_bind.
  destruct (read_reserved_ok im v Hm) as (_ & _ & Hic).
  eapply read_root_dir_parents; [|exact H].
  intros i p Hi. rewrite Hic, lookup_empty in Hi. discriminate.
Qed.

Lemma get_dir_parents (fuel : nat) (f f' : Fat) (inode : Z) d :
  parents_cached f -> get_dir fuel f inode = Ok (f', d) -> parents_cached f'.
Proof.
  intros Hpc H. unfold get_dir in H.
  destruct (dir_cache f !! inode).
  - inversion H; subst. exact Hpc.
  - inv_bind. inversion H; subst. eapply read_dir_chain_parents; eassumption.
Qed.

Lemma fat_step_parents (to_lowercase : list Z -> list Z) (fuel : nat) (f f' : Fat) (op : fat_op) :
  parents_cached f -> fat_step to_lowercase fuel f op = Ok f' -> parents_cached f'.
Proof.
  intros Hpc H. destruct op; cbn [fat_step] in H; inv_bind.
  - destruct v as [g d]. inversion H; subst. eapply get_dir_parents; eassumption.
  - destruct v as [g d]. inversion H; subst. unfold lookup in Hm. inv_bind.
    assert (Hv : parents_cached v).
    { destruct (dir_cache f !! parent_inode).
      - inversion Hm0; subst. exact Hpc.
      - inv_bind. destruct v0 as [g' d']. inversion Hm0; subst.
        eapply get_dir_parents; eassumption. }
    destruct (dir_cache v !! parent_inode); inversion Hm; subst; exact Hv.
  - inversion H; subst. exact Hpc.
  - inversion H; subst. exact Hpc.
Qed.

Lemma run_ops_parents (to_lowercase : list Z -> list Z) (fuel : nat) (ops : list fat_op) (f f' : Fat) :
  parents_cached f -> run_ops to_lowercase fuel f ops = Ok f' -> parents_cached f'.
Proof.
  revert f. induction ops as [|op r IH]; intros f Hpc H; cbn [run_ops] in H.
  - inversion H; subst. exact Hpc.
  - inv_bind. apply (IH v); [eapply fat_step_parents; eassumption | exact H].
Qed.

(** C9: after mounting and any sequence of list_directory, lookup, get_data
    and get_inode calls, every parent recorded in the inode-to-parent map
    has its entry list in the directory cache, so [get_inode] never fails
    its directory-cache lookup for an inode of that map. *)
Theorem C9_parents_always_cached :
  forall (to_lowercase : list Z -> list Z) (fuel : nat) (im : Image) (ops : list fat_op) (f0 f : Fat),
    mount_volume fuel im = Ok f0 ->
    run_ops to_lowercase fuel f0 ops = Ok f ->
    parents_cached f /\
    (forall i p, inode_cache f !! i = Some p -> exists r, get_inode f i = Ok r).
Proof.
  intros tl fuel im ops f0 f Hm Hr.
  assert (Hpc : parents_cached f) by (eapply run_ops_parents; [eapply mount_volume_parents|]; eassumption).
  split; [exact Hpc|].
  intros i p Hi. unfold get_inode. rewrite Hi.
  destruct (Hpc i p Hi) as [dir Hd]. rewrite Hd. cbn. eauto.
Qed.

Lemma C9_parents_always_cached_witness :
  (mount_volume 10 seed_image = Ok (mounted 10 seed_image) /\
   run_ops (fun l => l) 10 (mounted 10 seed_image) seed_ops = Ok seed_after_ops) /\
  (parents_cached seed_after_ops /\
   (forall i p, inode_cache seed_after_ops !! i = Some p -> exists r, get_inode seed_after_ops i = Ok r)).
Proof.
  assert (H1 : mount_volume 10 seed_image = Ok (mounted 10 seed_image)) by (vm_compute; reflexivity).
  assert (H2 : run_ops (fun l => l) 10 (mounted 10 seed_image) seed_ops = Ok seed_after_ops)
    by (vm_compute; reflexivity).
  split; [exact (conj H1 H2)|].
  exact (C9_parents_always_cached (fun l => l) 10 seed_image seed_ops (mounted 10 seed_image) seed_after_ops H1 H2).
Defined.

(** * Further properties of the code *)

Lemma shiftr_land_field (a w s : Z) :
  0 <= w -> 0 <= s ->
  Z.shiftr (Z.land a (Z.shiftl (Z.ones w) s)) s = (a / 2 ^ s) mod 2 ^ w.
Proof.
  intros Hw Hs. rewrite Z.shiftr_land, Z.shiftr_shiftl_l by lia.
  rewrite Z.sub_diag, Z.shiftl_0_r, Z.land_ones, Z.shiftr_div_pow2 by lia. reflexivity.
Qed.

(** A FAT date stamp (a u16) is decoded by [parse_date] without failure into year 1980 + bits 9-15, month bits 5-8 and day bits 0-4; month and day are not range-checked. *)
Theorem parse_date_fields (date : Z) :
  0 <= date < 65536 ->
  parse_date date = Ok (1980 + date / 512, (date / 32) mod 16, date mod 32).
Proof.
  intros Hd. unfold parse_date.
  change 480 with (Z.shiftl (Z.ones 4) 5). change 65024 with (Z.shiftl (Z.ones 7) 9).
  change 31 with (Z.ones 5).
  rewrite !shiftr_land_field, Z.land_ones by lia.
  change (2 ^ 5) with 32. change (2 ^ 4) with 16. change (2 ^ 9) with 512. change (2 ^ 7) with 128.
  assert (H1 : 0 <= date / 512 < 128) by (split; [apply Z.div_pos | apply Z.div_lt_upper_bound]; lia).
  rewrite (Z.mod_small (date / 512) 128) by lia.
  pose proof (Z.mod_pos_bound (date / 32) 16 ltac:(lia)).
  pose proof (Z.mod_pos_bound date 32 ltac:(lia)).
  unfold u16_add. rewrite chk_in by (change (2 ^ 16) with 65536; lia). cbn [res_bind].
  rewrite !chk_in by (change (2 ^ 8) with 256; lia). cbn [res_bind].
  rewrite Z.add_comm. reflexivity.
Qed.

(** A FAT time stamp (a u16) is decoded by [parse_time] without failure into hour bits 11-15, minute bits 5-10 and second twice bits 0-4; the fields are not range-checked. *)
Theorem parse_time_fields (time : Z) :
  0 <= time < 65536 ->
  parse_time time = Ok (time / 2048, (time / 32) mod 64, 2 * (time mod 32)).
Proof.
  intros Ht. unfold parse_time.
  change 2016 with (Z.shiftl (Z.ones 6) 5). change 63488 with (Z.shiftl (Z.ones 5) 11).
  change 31 with (Z.ones 5).
  rewrite !shiftr_land_field, Z.land_ones by lia.
  change (2 ^ 5) with 32. change (2 ^ 6) with 64. change (2 ^ 11) with 2048.
  assert (H1 : 0 <= time / 2048 < 32) by (split; [apply Z.div_pos | apply Z.div_lt_upper_bound]; lia).
  rewrite (Z.mod_small (time / 2048) 32) by lia.
  pose proof (Z.mod_pos_bound (time / 32) 64 ltac:(lia)).
  pose proof (Z.mod_pos_bound time 32 ltac:(lia)).
  unfold u16_mul. rewrite chk_in by (change (2 ^ 16) with 65536; lia). cbn [res_bind].
  rewrite !chk_in by (change (2 ^ 8) with 256; lia). cbn [res_bind].
  rewrite (Z.mul_comm 2). reflexivity.
Qed.

(** For a known inode, [get_data] returns the bytes [offset, offset + size) of the cluster-aligned chain data, cut at its end, and the empty list when the offset is past it. *)
Theorem get_data_subrange (fuel : nat) (f : Fat) (ino off sz p : Z) (data : list Z) :
  inode_cache f !! ino = Some p ->
  read_file_full fuel f ino = Ok data ->
  0 <= off -> 0 <= sz -> off + sz < 2 ^ 64 ->
  get_data fuel f ino off sz = Ok (Some (firstn (Z.to_nat sz) (skipn (Z.to_nat off) data))).
Proof.
  intros Hp Hd Ho Hs Hb. unfold get_data. rewrite Hp, Hd. cbn [res_bind].
  unfold usize_add. rewrite chk_in by lia. cbn [res_bind].
  destruct (Z.of_nat (length data) <? off) eqn:E.
  - apply Z.ltb_lt in E. rewrite skipn_all2 by lia. rewrite firstn_nil. reflexivity.
  - apply Z.ltb_ge in E. unfold slice.
    destruct (Z.of_nat (length data) <? off + sz) eqn:E2.
    + apply Z.ltb_lt in E2.
      replace ((0 <=? off) && (off <=? Z.of_nat (length data)) && (Z.of_nat (length data) <=? Z.of_nat (length data)))
        with true by (symmetry; rewrite !andb_true_iff, !Z.leb_le; lia).
      cbn [res_bind]. rewrite !firstn_all2; [reflexivity | rewrite length_skipn; lia | rewrite length_skipn; lia].
    + apply Z.ltb_ge in E2.
      replace ((0 <=? off) && (off <=? off + sz) && (off + sz <=? Z.of_nat (length data)))
        with true by (symmetry; rewrite !andb_true_iff, !Z.leb_le; lia).
      cbn [res_bind]. do 3 f_equal. lia.
Qed.

Lemma read_sector_length (f : Fat) (n : Z) (d : list Z) :
  read_sector f n = Ok d -> length d = Z.to_nat (bytes_per_sector (bpb f)).
Proof.
  unfold read_sector. destruct (_ <=? _); intros H; inversion H; subst.
  unfold img_read, zrange. rewrite length_map, length_map, length_seq. f_equal. lia.
Qed.

Lemma read_sectors_length (f : Fat) (fs : Z) (is : list Z) (d : list Z) :
  read_sectors f fs is = Ok d -> length d = (length is * Z.to_nat (bytes_per_sector (bpb f)))%nat.
Proof.
  revert d. induction is as [|i r IH]; intros d H; cbn [read_sectors] in H.
  - inversion H; reflexivity.
  - inv_bind. inversion H; subst. rewrite length_app, (read_sector_length _ _ _ Hm0), (IH _ Hm1).
    simpl. lia.
Qed.

Lemma read_data_length (f : Fat) (c : Z) (d : list Z) (o : option Z) :
  c <> 0 -> read_data f c = Ok (d, o) ->
  length d = (Z.to_nat (sectors_per_cluster (bpb f)) * Z.to_nat (bytes_per_sector (bpb f)))%nat /\
  (forall e, o = Some e -> e <> 0).
Proof.
  intros Hc H. unfold read_data in H.
  replace (c =? 0) with false in H by (symmetry; apply Z.eqb_neq; exact Hc).
  inv_bind. destruct v1 as [s off]. inv_bind.
  unfold read_cluster in Hm0. apply read_sectors_length in Hm0.
  unfold zrange in Hm0. rewrite length_map, length_seq, Z.sub_0_r in Hm0.
  destruct (is_eof f v1 || (v1 =? 0)) eqn:E; inversion H; subst; split; try exact Hm0.
  - discriminate.
  - intros e He. inversion He; subst. apply orb_false_iff in E as [_ E]. apply Z.eqb_neq. exact E.
Qed.

(** [read_file_full] of a nonzero cluster returns a whole, positive number of clusters of data. *)
Theorem read_file_full_whole_clusters (fuel : nat) (f : Fat) (c : Z) (d : list Z) :
  c <> 0 -> read_file_full fuel f c = Ok d ->
  exists k, (1 <= k)%nat /\
    length d = (k * (Z.to_nat (sectors_per_cluster (bpb f)) * Z.to_nat (bytes_per_sector (bpb f))))%nat.
Proof.
  intros Hc H. unfold read_file_full in H. inv_bind. destruct v as [sec o].
  destruct (read_data_length f c sec o Hc Hm) as [Hl Ho].
  set (cs := (Z.to_nat (sectors_per_cluster (bpb f)) * Z.to_nat (bytes_per_sector (bpb f)))%nat) in *.
  assert (Gen : forall fuel data sector opt r k,
             length data = (k * cs)%nat -> length sector = cs ->
             (forall e, opt = Some e -> e <> 0) ->
             read_file_full_loop fuel f data sector opt = Ok r ->
             exists k', (S k <= k')%nat /\ length r = (k' * cs)%nat).
  { induction fuel0 as [|fu IH]; intros data sector opt r k Hd Hs Hop Hr.
    - destruct opt; [discriminate|]. inversion Hr; subst.
      exists (S k). split; [lia|]. rewrite length_app. lia.
    - destruct opt as [e|].
      + cbn [read_file_full_loop] in Hr. inv_bind. destruct v as [sec' o'].
        destruct (read_data_length f e sec' o' (Hop e eq_refl) Hm0) as [Hl' Ho'].
        destruct (IH (data ++ sector) sec' o' r (S k)) as [k' [Hk' Hr']];
          [rewrite length_app; lia | exact Hl' | exact Ho' | exact Hr |].
        exists k'. split; [lia | exact Hr'].
      + inversion Hr; subst. exists (S k). split; [lia|]. rewrite length_app. lia. }
  destruct (Gen fuel [] sec o d 0%nat eq_refl Hl Ho H) as [k [Hk Hd]].
  exists k. split; [lia | exact Hd].
Qed.

(** [get_dir] always returns a directory, caches it under the inode so that later calls return it unchanged without reading, keeps the earlier cache entries and changes neither the volume parameters, the FAT copy nor the image. *)
Theorem get_dir_caches (fuel : nat) (f f' : Fat) (i : Z) (d : option (list FatDirectoryEntryContainer)) :
  get_dir fuel f i = Ok (f', d) ->
  is_Some d /\ dir_cache f' !! i = d /\
  (forall fuel', get_dir fuel' f' i = Ok (f', d)) /\
  (forall j x, dir_cache f !! j = Some x -> dir_cache f' !! j = Some x) /\
  bpb f' = bpb f /\ ebpb32 f' = ebpb32 f /\ fat_type f' = fat_type f /\ fat f' = fat f /\ image f' = image f.
Proof.
  intros H. unfold get_dir in H. destruct (dir_cache f !! i) as [x|] eqn:Ei.
  - inversion H; subst. rewrite Ei. split; [eauto|]. split; [reflexivity|].
    split; [intros fu; unfold get_dir; rewrite Ei; reflexivity|]. repeat split; auto.
  - inv_bind. inversion H; subst. clear H.
    destruct (read_dir_chain_frame _ _ _ _ _ _ Hm0) as (H1 & H2 & H3 & H4 & H5).
    unfold read_dir_chain in Hm0. inv_bind. inversion Hm0; subst. clear Hm0.
    simpl in *. rewrite lookup_insert_eq.
    split; [eauto|]. split; [reflexivity|]. split.
    + intros fu. unfold get_dir. simpl. rewrite lookup_insert_eq. reflexivity.
    + split; [|repeat split; auto]. intros j x Hj. destruct (decide (i = j)) as [<-|Hne].
      * congruence.
      * rewrite lookup_insert_ne by exact Hne. exact Hj.
Qed.

Lemma find_child_spec (tl : list Z -> list Z) (nm : list Z) (dir : list FatDirectoryEntryContainer) :
  match find_child tl nm dir with
  | Some c => exists pre post, dir = pre ++ c :: post /\ tl (cached_name c) = nm /\
               Forall (fun c' => tl (cached_name c') <> nm) pre
  | None => Forall (fun c' => tl (cached_name c') <> nm) dir
  end.
Proof.
  induction dir as [|c r IH]; simpl; [constructor|].
  case_bool_decide as E.
  - exists [], r. simpl. auto.
  - destruct (find_child tl nm r) as [c'|].
    + destruct IH as (pre & post & -> & Hn & Hf). exists (c :: pre), post. simpl. auto.
    + constructor; assumption.
Qed.

(** [lookup] leaves the parent directory cached and returns its first entry whose lowercased name equals the lowercased name looked up, or nothing when no entry matches. *)
Theorem lookup_result (tl : list Z -> list Z) (fuel : nat) (f f' : Fat) (p : Z) (nm : list Z)
    (r : option FatDirectoryEntryContainer) :
  lookup tl fuel f p nm = Ok (f', r) ->
  exists dir, dir_cache f' !! p = Some dir /\
    match r with
    | Some c => exists pre post, dir = pre ++ c :: post /\ tl (cached_name c) = tl nm /\
                 Forall (fun c' => tl (cached_name c') <> tl nm) pre
    | None => Forall (fun c' => tl (cached_name c') <> tl nm) dir
    end.
Proof.
  intros H. unfold lookup in H. inv_bind.
  assert (Hs : is_Some (dir_cache v !! p)).
  { destruct (dir_cache f !! p) eqn:E.
    - inversion Hm; subst. rewrite E. eauto.
    - inv_bind. destruct v0 as [g d]. inversion Hm; subst. unfold list_directory in Hm0.
      destruct (get_dir_caches _ _ _ _ _ Hm0) as (Hd & Hc & _). rewrite Hc. exact Hd. }
  destruct Hs as [dir Hdir]. rewrite Hdir in H. inversion H; subst.
  exists dir. split; [exact Hdir|]. apply find_child_spec.
Qed.

(** [get_inode] returns an entry of the cached parent directory whose cluster number is the inode, and nothing only when the inode has no recorded parent or the parent directory has no such entry. *)
Theorem get_inode_result (f : Fat) (i : Z) (r : option FatDirectoryEntryContainer) :
  get_inode f i = Ok r ->
  match r with
  | Some c => container_cluster_number c = i /\
      exists p dir, inode_cache f !! i = Some p /\ dir_cache f !! p = Some dir /\ In c dir
  | None => inode_cache f !! i = None \/
      exists p dir, inode_cache f !! i = Some p /\ dir_cache f !! p = Some dir /\
        Forall (fun c => container_cluster_number c <> i) dir
  end.
Proof.
  unfold get_inode. destruct (inode_cache f !! i) as [p|] eqn:Ep; intros H.
  - inv_bind. destruct (dir_cache f !! p) as [dir|] eqn:Ed; [|discriminate].
    cbn in Hm. injection Hm as <-. injection H as <-.
    destruct (List.find (fun c => container_cluster_number c =? i) dir) as [c|] eqn:Ef.
    + apply find_some in Ef as [Hin Hc]. apply Z.eqb_eq in Hc. split; [exact Hc|]. eauto.
    + right. exists p, dir. split; [first [exact Ep | reflexivity]|]. split; [first [exact Ed | reflexivity]|].
      apply List.Forall_forall. intros c Hin. apply Z.eqb_neq. exact (find_none _ _ Ef c Hin).
  - inversion H; subst. left. reflexivity.
Qed.


(** The pending long-name fragments are attached to a short entry either all, in the order read and each with the short name's checksum, or none; in the second case the fragments after the rejected one stay pending. *)
Theorem move_long_entries_all_or_nothing (cur acc les rest : list FatLongDirectoryEntry) (ck : Z) :
  move_long_entries cur ck acc = Ok (les, rest) ->
  (les = acc ++ cur /\ rest = [] /\ Forall (fun e => checksum e = ck) cur) \/
  (les = [] /\ exists pre e, cur = pre ++ e :: rest).
Proof.
  revert acc. induction cur as [|e r IH]; intros acc H; cbn [move_long_entries] in H.
  - inversion H; subst. left. rewrite app_nil_r. auto.
  - inv_bind. destruct (Z.land (attr e) v =? 0).
    + inversion H; subst. right. split; [reflexivity|]. exists [], e. reflexivity.
    + destruct (negb (checksum e =? ck)) eqn:Ec.
      * inversion H; subst. right. split; [reflexivity|]. exists [], e. reflexivity.
      * apply negb_false_iff, Z.eqb_eq in Ec.
        destruct (IH _ H) as [(-> & -> & Hf)|(-> & pre & x & ->)].
        -- left. rewrite <- app_assoc. auto.
        -- right. split; [reflexivity|]. exists (e :: pre), x. reflexivity.
Qed.

Lemma move_long_entries_checksum (cur acc les rest : list FatLongDirectoryEntry) (ck : Z) :
  move_long_entries cur ck acc = Ok (les, rest) ->
  Forall (fun e => checksum e = ck) acc -> Forall (fun e => checksum e = ck) les.
Proof.
  intros H Ha. destruct (move_long_entries_all_or_nothing _ _ _ _ _ H) as [(-> & _ & Hf)|(-> & _)].
  - apply Forall_app. auto.
  - constructor.
Qed.

Lemma idx_nth (l : list Z) (i v : Z) : idx l i = Ok v -> nth (Z.to_nat i) l 0 = v.
Proof.
  unfold idx. destruct (i <? 0); [discriminate|]. unfold unwrap.
  destruct (nth_error l (Z.to_nat i)) eqn:E; intros H; inversion H; subst.
  apply nth_error_nth. exact E.
Qed.

Lemma read_dir_chain_loop_ok (fuel cf : nat) (f : Fat) (sector : list Z) (cur : Z)
    (pend : list FatLongDirectoryEntry) (entries out : list FatDirectoryEntryContainer) :
  read_dir_chain_loop fuel cf f sector cur pend entries = Ok out ->
  Forall (decoded_entry_ok cf f) entries -> Forall (decoded_entry_ok cf f) out.
Proof.
  revert cur pend entries. induction fuel as [|fu IH]; intros cur pend entries H He;
    cbn [read_dir_chain_loop] in H; [discriminate|].
  inv_bind. rename v1 into b0.
  destruct (b0 =? 0) eqn:E0; [inversion H; subst; exact He|].
  destruct (b0 =? 229) eqn:E229; [exact (IH _ _ _ H He)|].
  inv_bind. rename v1 into a.
  destruct (Z.land a 63 =? 15) eqn:E15; [exact (IH _ _ _ H He)|].
  destruct ((Z.land a 24 =? 0) || (Z.land a 24 =? 16) || (Z.land a 24 =? 8)) eqn:Et;
    [|exact (IH _ _ _ H He)].
  inv_bind. destruct v1 as [les rest]. inv_bind.
  apply (IH _ _ _ H). apply Forall_app. split; [exact He|]. constructor; [|constructor].
  apply idx_nth in Hm1. apply idx_nth in Hm2. cbn [Z.to_nat Pos.to_nat] in Hm1, Hm2.
  unfold decoded_entry_ok. cbn [short_entry long_entries cached_name cached_cluster_count].
  assert (Hn : hd 0 (name (FatDirectoryEntry_new v0)) = b0) by exact Hm1.
  assert (Ha : attribute (FatDirectoryEntry_new v0) = a) by exact Hm2.
  rewrite Hn, Ha.
  apply Z.eqb_neq in E0. apply Z.eqb_neq in E229. apply Z.eqb_neq in E15.
  split; [exact E0|]. split; [exact E229|]. split; [exact E15|].
  split.
  { intros E24. rewrite E24 in Et. discriminate. }
  split; [apply (move_long_entries_checksum _ _ _ _ _ Hm3); constructor|].
  split; assumption.
Qed.

Lemma cache_parents_keeps (es : list FatDirectoryEntryContainer) (ic : gmap Z Z) (inode k : Z) :
  ic !! k = Some inode -> cache_parents ic es inode !! k = Some inode.
Proof.
  unfold cache_parents. revert ic. induction es as [|e r IH]; intros ic H; simpl; [exact H|].
  apply IH. destruct (decide (container_cluster_number e = k)) as [<-|Hne].
  - apply lookup_insert_eq.
  - rewrite lookup_insert_ne by exact Hne. exact H.
Qed.

Lemma cache_parents_all (es : list FatDirectoryEntryContainer) (ic : gmap Z Z) (inode : Z) :
  Forall (fun c => cache_parents ic es inode !! container_cluster_number c = Some inode) es.
Proof.
  revert ic. induction es as [|e r IH]; intros ic; constructor.
  - unfold cache_parents. simpl. apply cache_parents_keeps. apply lookup_insert_eq.
  - exact (IH _).
Qed.

(** Every entry cached by [read_dir_chain] comes from a short entry whose first name byte is neither 0x00 nor 0xE5 and which is neither a long-name fragment nor a volume-id directory, carries fragments with its checksum, its parsed name and its chain length, and has the directory's inode as recorded parent. *)
Theorem read_dir_chain_entries (cf : nat) (f f' : Fat) (inode : Z) (sector : list Z) (start : Z) :
  read_dir_chain cf f inode sector start = Ok f' ->
  exists entries, dir_cache f' !! inode = Some entries /\
    Forall (decoded_entry_ok cf f) entries /\
    Forall (fun c => inode_cache f' !! container_cluster_number c = Some inode) entries.
Proof.
  unfold read_dir_chain. intros H. inv_bind. inversion H; subst. clear H.
  exists v. simpl. rewrite lookup_insert_eq. split; [reflexivity|]. split.
  - exact (read_dir_chain_loop_ok _ _ _ _ _ _ _ _ Hm (List.Forall_nil _)).
  - apply cache_parents_all.
Qed.

Lemma read_root_dir_caches (fuel : nat) (f f' : Fat) :
  read_root_dir fuel f = Ok f' -> exists dc ic, f' = set_caches f dc ic.
Proof.
  unfold read_root_dir. intros H.
  destruct (fat_type f); inv_bind; unfold read_dir_chain in H; inv_bind;
    inversion H; subst; eauto.
Qed.

Lemma In_zrange_inv (a b x : Z) : In x (zrange a b) -> a <= x < b.
Proof.
  unfold zrange. intros H. apply in_map_iff in H as [n [<- Hn]].
  apply in_seq in Hn. lia.
Qed.

Lemma read_reserved_sectors_lookup (g : Fat) (is : list Z) (m m' : gmap Z (list Z)) :
  read_reserved_sectors g is m = Ok m' ->
  forall i, m' !! i = if bool_decide (i ∈ is)
                      then Some (img_read (image g) (bytes_per_sector (bpb g) * i) (bytes_per_sector (bpb g)))
                      else m !! i.
Proof.
  revert m. induction is as [|j r IH]; intros m H i; cbn [read_reserved_sectors] in H.
  - inversion H; subst. reflexivity.
  - inv_bind. rewrite (IH _ H i). unfold read_sector in Hm.
    destruct (_ <=? _); [|discriminate]. injection Hm as <-.
    case_bool_decide as E1; case_bool_decide as E2; try reflexivity.
    + exfalso. apply E2. apply elem_of_cons. right. exact E1.
    + apply elem_of_cons in E2. destruct E2 as [<-|E2]; [|contradiction].
      rewrite lookup_insert_eq. reflexivity.
    + rewrite lookup_insert_ne; [reflexivity|]. intros <-. apply E2. apply elem_of_cons. left. reflexivity.
Qed.

(** After mounting, the FAT copy holds exactly the sectors 0 .. first data sector - 1 of the image, each as read at its byte offset; the volume has at least two FATs. *)
Theorem mount_volume_reserved_region (fuel : nat) (im : Image) (f : Fat) :
  mount_volume fuel im = Ok f ->
  image f = im /\ 2 <= num_fats (bpb f) /\
  exists fds, first_sector_of_cluster f 2 = Ok fds /\
    forall i, fat f !! i =
      if (0 <=? i) && (i <? fds)
      then Some (img_read im (bytes_per_sector (bpb f) * i) (bytes_per_sector (bpb f)))
      else None.
Proof.
  unfold mount_volume. intros H. inv_bind.
  destruct (read_root_dir_caches _ _ _ H) as (dc & ic & ->). clear H.
  unfold read_reserved in Hm.
  destruct (img_len im <? 512); [discriminate|]. inv_bind.
  match type of Hm with context [if img_len im <? ?d then Panic else _] =>
    destruct (img_len im <? d); [discriminate|] end.
  inv_bind. destruct v1 as [cc t].
  match type of Hm with context [if num_fats ?b <? 2 then Panic else _] =>
    destruct (num_fats b <? 2) eqn:Enf; [discriminate|] end. inv_bind.
  injection Hm as <-. apply Z.ltb_ge in Enf.
  cbn [set_caches set_fat_map image bpb fat] in *.
  split; [reflexivity|]. split; [exact Enf|].
  match goal with
  | Hf : first_sector_of_cluster _ 2 = Ok ?n, Hr : read_reserved_sectors _ _ _ = Ok _ |- _ =>
      exists n; split; [exact Hf|]; intros i; rewrite (read_reserved_sectors_lookup _ _ _ _ Hr i)
  end.
  cbn [set_fat_type image bpb fat].
  case_bool_decide as E.
  - apply list_elem_of_In, In_zrange_inv in E. rewrite (proj2 (andb_true_iff _ _)); [reflexivity|].
    rewrite Z.leb_le, Z.ltb_lt. lia.
  - match goal with |- _ = if ?c then _ else _ => destruct c eqn:E2 end; [|apply lookup_empty].
    exfalso. apply E, list_elem_of_In, In_zrange. apply andb_true_iff in E2. rewrite Z.leb_le, Z.ltb_lt in E2. lia.
Qed.

(** Mounting takes the BPB from sector 0 when it carries the 0x55AA signature, and otherwise from the backup at byte 3072, which must carry it; the FAT32 EBPB is used exactly when both 16-bit sizes are 0 and the 32-bit total is not, and the image is at least as long as the declared size. *)
Theorem mount_volume_boot_sector (fuel : nat) (im : Image) (f : Fat) :
  mount_volume fuel im = Ok f ->
  exists buffer,
    signature_ok buffer = true /\
    (buffer = img_read im 0 512 \/
     (signature_ok (img_read im 0 512) = false /\ buffer = img_read im 3072 512)) /\
    bs f = FatBs_new buffer /\ bpb f = FatBpb_new buffer /\
    (if (fat_size_16 (bpb f) =? 0) && (total_sectors_16 (bpb f) =? 0)
        && negb (total_sectors_32 (bpb f) =? 0)
     then ebpb32 f = Some (Fat32Ebpb_new buffer) /\ ebpb16 f = None
     else ebpb32 f = None /\ ebpb16 f = Some (FatEbpb_new buffer)) /\
    (if total_sectors_16 (bpb f) =? 0
     then total_sectors_32 (bpb f) * bytes_per_sector (bpb f)
     else total_sectors_16 (bpb f) * bytes_per_sector (bpb f)) <= img_len im.
Proof.
  unfold mount_volume. intros H. inv_bind.
  destruct (read_root_dir_caches _ _ _ H) as (dc & ic & ->). clear H.
  unfold read_reserved in Hm.
  destruct (img_len im <? 512); [discriminate|]. inv_bind.
  match type of Hm with context [if img_len im <? ?d then Panic else _] =>
    destruct (img_len im <? d) eqn:Ed; [discriminate|] end.
  apply Z.ltb_ge in Ed.
  inv_bind. destruct v1 as [cc t].
  match type of Hm with context [if num_fats ?b <? 2 then Panic else _] =>
    destruct (num_fats b <? 2); [discriminate|] end.
  inv_bind. injection Hm as <-.
  exists v0. cbn [set_caches set_fat_map set_fat_type bs bpb ebpb16 ebpb32].
  split; [|split; [|split; [reflexivity|split; [reflexivity|split; [|exact Ed]]]]].
  - destruct (signature_ok (img_read im 0 512)) eqn:S0; [injection Hm0 as <-; exact S0|].
    destruct (img_len im <? 3072 + 512); [discriminate|].
    destruct (signature_ok (img_read im 3072 512)) eqn:S6; [injection Hm0 as <-; exact S6|discriminate].
  - destruct (signature_ok (img_read im 0 512)) eqn:S0; [injection Hm0 as <-; left; reflexivity|].
    destruct (img_len im <? 3072 + 512); [discriminate|].
    destruct (signature_ok (img_read im 3072 512)); [injection Hm0 as <-; right; auto|discriminate].
  - destruct (_ && _ && _); auto.
Qed.

(** [first_sector_of_cluster] aborts for the reserved clusters 0 and 1. *)
Theorem first_sector_of_cluster_reserved (f : Fat) (c : Z) :
  0 <= c < 2 -> first_sector_of_cluster f c = Panic.
Proof.
  intros Hc. unfold first_sector_of_cluster, root_dir_sectors, calculate_fat_size,
    u16_mul, u16_sub, u16_add, u16_div, u32_mul, u32_add, u32_sub, unwrap.
  assert (Hs : chk 32 (c - 2) = Panic).
  { unfold chk. replace ((0 <=? c - 2) && (c - 2 <? 2 ^ 32)) with false; [reflexivity|].
    symmetry. apply andb_false_iff. left. apply Z.leb_gt. lia. }
  rewrite Hs. unfold chk.
  repeat match goal with
  | |- context [if ?b then _ else _] => destruct b; cbn [res_bind]
  | |- context [match ?o with Some _ => _ | None => _ end] => destruct o; cbn [res_bind]
  end; reflexivity.
Qed.

Lemma idx_in (l : list Z) (i : Z) :
  0 <= i < Z.of_nat (length l) -> idx l i = Ok (nth (Z.to_nat i) l 0).
Proof.
  intros H. unfold idx. replace (i <? 0) with false by (symmetry; apply Z.ltb_ge; lia).
  unfold unwrap. rewrite (nth_error_nth' l 0) by lia. reflexivity.
Qed.

Lemma nth_byte (l : list Z) (n : nat) :
  Forall (fun b => 0 <= b < 256) l -> 0 <= nth n l 0 < 256.
Proof.
  intros H. destruct (Nat.lt_ge_cases n (length l)) as [Hn|Hn].
  - rewrite List.Forall_forall in H. apply H. apply nth_In. exact Hn.
  - rewrite nth_overflow by exact Hn. lia.
Qed.

Lemma mod_multiple_aligned (a m k : Z) :
  0 < k -> 0 < m -> m mod k = 0 -> (k * a) mod m mod k = 0.
Proof.
  intros Hk Hm Hmk. rewrite Z.mod_mod_divide.
  - rewrite Z.mul_comm. apply Z.mod_mul. lia.
  - apply Z.mod_divide; lia.
Qed.

(** On a FAT16 volume the FAT entry of a cluster is the little-endian u16 at offset 2c mod bytes_per_sector of FAT sector reserved + 2c / bytes_per_sector. *)
Theorem fat16_entry_decoding (f : Fat) (c : Z) (sec : list Z) :
  fat_type f = Fat16 ->
  0 <= 2 * c < 2 ^ 32 ->
  0 < bytes_per_sector (bpb f) < 2 ^ 16 -> bytes_per_sector (bpb f) mod 2 = 0 ->
  0 <= reserved_clusters (bpb f) + 2 * c / bytes_per_sector (bpb f) < 2 ^ 32 ->
  fat f !! (reserved_clusters (bpb f) + 2 * c / bytes_per_sector (bpb f)) = Some sec ->
  Z.of_nat (length sec) = bytes_per_sector (bpb f) ->
  Forall (fun b => 0 <= b < 256) sec ->
  fat_entry_of f c = Ok (le16 sec ((2 * c) mod bytes_per_sector (bpb f))).
Proof.
  set (bps := bytes_per_sector (bpb f)). set (rsv := reserved_clusters (bpb f)).
  intros Ht Hc Hb Hb2 Hs Hsec Hl Hby.
  unfold fat_entry_of, determine_fat_entry_offset. rewrite Ht.
  unfold u32_mul, u32_div, u32_add, u32_rem.
  rewrite (Z.mul_comm c 2), chk_in by lia. cbn [res_bind].
  fold bps rsv. replace (bps =? 0) with false by (symmetry; apply Z.eqb_neq; lia).
  cbn [res_bind]. rewrite chk_in by lia. cbn [res_bind].
  unfold read_fat_entry. rewrite Ht. fold rsv. rewrite Hsec. cbn [unwrap res_bind].
  assert (Ho := Z.mod_pos_bound (2 * c) bps (proj1 Hb)).
  assert (He := mod_multiple_aligned c bps 2 ltac:(lia) (proj1 Hb) Hb2).
  set (o := (2 * c) mod bps) in *. clearbody o.
  pose proof (Z.div_mod o 2 ltac:(lia)). pose proof (Z.div_mod bps 2 ltac:(lia)).
  rewrite idx_in by lia. cbn [res_bind]. unfold usize_add. rewrite chk_in by lia.
  cbn [res_bind]. rewrite idx_in by lia. cbn [res_bind].
  assert (B0 := nth_byte sec (Z.to_nat o) Hby).
  assert (B1 := nth_byte sec (Z.to_nat (o + 1)) Hby).
  rewrite lor_shiftl_add by lia. unfold le16. f_equal. lia.
Qed.

(** On a FAT32 volume whose FAT is mirrored (flags bit 8 clear), the FAT entry of a cluster is the low 28 bits of the little-endian u32 at offset 4c mod bytes_per_sector of FAT sector reserved + 4c / bytes_per_sector. *)
Theorem fat32_entry_decoding (f : Fat) (e : Fat32Ebpb) (c : Z) (sec : list Z) :
  fat_type f = Fat32 -> ebpb32 f = Some e -> Z.land (flags e) 256 = 0 ->
  0 <= 4 * c < 2 ^ 32 ->
  0 < bytes_per_sector (bpb f) < 2 ^ 16 -> bytes_per_sector (bpb f) mod 4 = 0 ->
  0 <= reserved_clusters (bpb f) + 4 * c / bytes_per_sector (bpb f) < 2 ^ 32 ->
  fat f !! (reserved_clusters (bpb f) + 4 * c / bytes_per_sector (bpb f)) = Some sec ->
  Z.of_nat (length sec) = bytes_per_sector (bpb f) ->
  Forall (fun b => 0 <= b < 256) sec ->
  fat_entry_of f c = Ok (le32 sec ((4 * c) mod bytes_per_sector (bpb f)) mod 2 ^ 28).
Proof.
  set (bps := bytes_per_sector (bpb f)). set (rsv := reserved_clusters (bpb f)).
  intros Ht He Hfl Hc Hb Hb4 Hs Hsec Hl Hby.
  unfold fat_entry_of, determine_fat_entry_offset. rewrite Ht.
  unfold u32_mul, u32_div, u32_add, u32_rem.
  rewrite (Z.mul_comm c 4), chk_in by lia. cbn [res_bind].
  fold bps rsv. replace (bps =? 0) with false by (symmetry; apply Z.eqb_neq; lia).
  cbn [res_bind]. rewrite chk_in by lia. cbn [res_bind].
  rewrite He. cbn [unwrap res_bind]. rewrite Hfl. cbn [Z.eqb res_bind].
  unfold read_fat_entry. rewrite Ht. fold rsv. rewrite Hsec. cbn [unwrap res_bind].
  assert (Ho := Z.mod_pos_bound (4 * c) bps (proj1 Hb)).
  assert (Ha := mod_multiple_aligned c bps 4 ltac:(lia) (proj1 Hb) Hb4).
  set (o := (4 * c) mod bps) in *. clearbody o.
  pose proof (Z.div_mod o 4 ltac:(lia)). pose proof (Z.div_mod bps 4 ltac:(lia)).
  unfold usize_add.
  rewrite idx_in by lia. cbn [res_bind]. rewrite chk_in by lia. cbn [res_bind].
  rewrite idx_in by lia. cbn [res_bind]. rewrite chk_in by lia. cbn [res_bind].
  rewrite idx_in by lia. cbn [res_bind]. rewrite chk_in by lia. cbn [res_bind].
  rewrite idx_in by lia. cbn [res_bind].
  assert (B0 := nth_byte sec (Z.to_nat o) Hby).
  assert (B1 := nth_byte sec (Z.to_nat (o + 1)) Hby).
  assert (B2 := nth_byte sec (Z.to_nat (o + 2)) Hby).
  assert (B3 := nth_byte sec (Z.to_nat (o + 3)) Hby).
  rewrite (lor_shiftl_add _ _ 8) by lia.
  rewrite (lor_shiftl_add _ _ 16) by (try lia; change (2 ^ 16) with (256 * 256); lia).
  rewrite (lor_shiftl_add _ _ 24) by (try lia; change (2 ^ 24) with (256 * 256 * 256); lia).
  change 268435455 with (Z.ones 28). rewrite Z.land_ones by lia.
  unfold le32, le16. replace (o + 2 + 1) with (o + 3) by lia. f_equal. f_equal. lia.
Qed.

Lemma readdir_cookies_nth (n i : nat) (l : list (Z * FileKind * list Z)) ino ck k nm :
  nth_error (readdir_cookies n l) i = Some (ino, ck, k, nm) -> ck = Z.of_nat (n + i) + 1.
Proof.
  revert n i. induction l as [|[[a b] c] r IH]; intros n i H; [destruct i; discriminate|].
  destruct i as [|i]; cbn in H.
  - injection H as _ <- _ _. f_equal. lia.
  - rewrite (IH _ _ H). f_equal. lia.
Qed.

Lemma readdir_cookies_length (n : nat) (l : list (Z * FileKind * list Z)) :
  length (readdir_cookies n l) = length l.
Proof.
  revert n. induction l as [|[[a b] c] r IH]; intros n; simpl; [reflexivity|]. rewrite IH. reflexivity.
Qed.

Lemma get_dir_frame_root (fuel : nat) (f f' : Fat) (i : Z) d :
  get_dir fuel f i = Ok (f', d) -> get_root_cluster_number f' = get_root_cluster_number f.
Proof.
  intros H. destruct (get_dir_caches _ _ _ _ _ H) as (_ & _ & _ & _ & _ & H2 & H3 & _).
  unfold get_root_cluster_number. rewrite H2, H3. reflexivity.
Qed.

(** The entry at position i of a full [readdir] listing has cookie i + 1, and [readdir] from that cookie returns exactly the entries after it. *)
Theorem readdir_resume (fuel fuel' : nat) (f f1 : Fat) (ino : Z)
    (all : list (Z * Z * FileKind * list Z)) (i : nat) ino' ck k nm :
  readdir fuel f ino 0 = Ok (f1, Some all) ->
  nth_error all i = Some (ino', ck, k, nm) ->
  Z.of_nat (length all) < 2 ^ 64 ->
  ck = Z.of_nat i + 1 /\ readdir fuel' f1 ino ck = Ok (f1, Some (skipn (S i) all)).
Proof.
  intros H Hi Hlen. unfold readdir in *. inv_bind. destruct v1 as [g dopt].
  destruct dopt as [dir|]; [|discriminate]. injection H as <- <-.
  rewrite Z.mod_0_l in Hi, Hlen by (apply Z.pow_nonzero; lia).
  replace (Z.to_nat 0) with O in Hi, Hlen by reflexivity. rewrite skipn_0 in Hi, Hlen.
  match type of Hi with context [readdir_cookies 0 ?l] => set (es := readdir_cookies 0 l) in * end.
  assert (Hck := readdir_cookies_nth _ _ _ _ _ _ _ Hi). cbn [Nat.add] in Hck.
  split; [exact Hck|].
  unfold list_directory in Hm1.
  destruct (get_dir_caches _ _ _ _ _ Hm1) as (_ & Hd & Hre & _).
  rewrite (get_dir_frame_root _ _ _ _ _ Hm1), Hm. cbn [res_bind].
  rewrite Hm0. cbn [res_bind]. unfold list_directory. rewrite (Hre fuel'). cbn [res_bind].
  assert (Hlt : (i < length es)%nat) by (apply nth_error_Some; congruence).
  rewrite Z.mod_0_l by (apply Z.pow_nonzero; lia).
  replace (Z.to_nat 0) with O by reflexivity. rewrite skipn_0.
  assert (Hb : 0 <= ck < 2 ^ 64) by (clearbody es; lia).
  rewrite Z.mod_small by exact Hb. rewrite Hck. do 4 f_equal. lia.
Qed.


Lemma readdir_push_listed (root ino : Z) (dir : list FatDirectoryEntryContainer) i k nm :
  In (i, k, nm) (readdir_push root dir) ->
  readdir_listed root dir ino (i, 0, k, nm).
Proof.
  induction dir as [|e r IH]; intros H; [destruct H|]. cbn [readdir_push] in H.
  assert (Hw : readdir_listed root r ino (i, 0, k, nm) -> readdir_listed root (e :: r) ino (i, 0, k, nm)).
  { unfold readdir_listed. intros [Hi [Hd|(e' & He' & Hrest)]]; split; auto.
    right. exists e'. split; [right; exact He'|exact Hrest]. }
  destruct (negb (Z.land (attribute (short_entry e)) 2 =? 0) || negb (Z.land (attribute (short_entry e)) 8 =? 0)) eqn:Eh;
    [exact (Hw (IH H))|].
  apply orb_false_iff in Eh as [E2 E8]. apply negb_false_iff, Z.eqb_eq in E2, E8.
  set (j := if (container_cluster_number e =? root) || (container_cluster_number e =? 0) then 1
            else container_cluster_number e) in H.
  assert (Hj : j <> 0).
  { subst j. destruct (_ || _) eqn:Ej; [lia|]. apply orb_false_iff in Ej as [_ Ej].
    apply Z.eqb_neq. exact Ej. }
  destruct (negb (Z.land (attribute (short_entry e)) 16 =? 0)) eqn:E16.
  - destruct H as [H|H]; [|exact (Hw (IH H))].
    injection H as <- <- <-. split; [exact Hj|]. right. exists e.
    apply negb_true_iff, Z.eqb_neq in E16. split; [left; reflexivity|]. auto 10.
  - apply negb_false_iff, Z.eqb_eq in E16.
    destruct (negb (Z.land (attribute (short_entry e)) 32 =? 0)) eqn:E32; [|exact (Hw (IH H))].
    destruct H as [H|H]; [|exact (Hw (IH H))].
    injection H as <- <- <-. split; [exact Hj|]. right. exists e.
    apply negb_true_iff, Z.eqb_neq in E32. split; [left; reflexivity|]. auto 10.
Qed.

Lemma In_readdir_cookies (n : nat) (l : list (Z * FileKind * list Z)) i ck k nm :
  In (i, ck, k, nm) (readdir_cookies n l) -> In (i, k, nm) l.
Proof.
  revert n. induction l as [|[[a b] c] r IH]; intros n H; [destruct H|].
  destruct H as [H|H]; [injection H as <- _ <- <-; left; reflexivity|right; exact (IH _ H)].
Qed.

Lemma In_skipn_Z {A : Type} (n : nat) (l : list A) (x : A) : In x (skipn n l) -> In x l.
Proof.
  revert l. induction n as [|n IH]; intros l H; [exact H|].
  destruct l as [|a r]; [destruct H|]. right. exact (IH _ H).
Qed.

(** Every entry listed by [readdir] has a nonzero inode and is either one of the '.' and '..' entries of the root or a cached entry that is neither hidden nor a volume id, listed as a directory when its directory bit is set and as a regular file when only its archive bit is. *)
Theorem readdir_entries (fuel : nat) (f f' : Fat) (ino off : Z) (l : list (Z * Z * FileKind * list Z)) :
  readdir fuel f ino off = Ok (f', Some l) ->
  exists root dir, get_root_cluster_number f = Ok root /\
    dir_cache f' !! (if ino =? 1 then root else ino) = Some dir /\
    Forall (readdir_listed root dir ino) l.
Proof.
  intros H. unfold readdir in H. inv_bind. destruct v1 as [g dopt].
  destruct dopt as [dir|]; [|discriminate]. injection H as <- <-.
  unfold list_directory in Hm1. destruct (get_dir_caches _ _ _ _ _ Hm1) as (_ & Hd & _).
  exists v, dir. split; [exact Hm|]. split.
  { destruct (ino =? 1); [injection Hm0 as <-; exact Hd|].
    apply chk_Ok in Hm0 as [-> _]. exact Hd. }
  apply List.Forall_forall. intros [[[i ck] k] nm] Hx.
  apply In_skipn_Z, In_readdir_cookies, in_app_or in Hx.
  destruct Hx as [Hx|Hx].
  - destruct (ino =? 1) eqn:E1; [|destruct Hx].
    apply Z.eqb_eq in E1.
    destruct Hx as [Hx|[Hx|[]]]; injection Hx as <- <- <-;
      (split; [lia|left; auto 6]).
  - destruct (readdir_push_listed v ino dir i k nm Hx) as [Hi Hr].
    split; [exact Hi|exact Hr].
Qed.

Lemma le16_bound (b : list Z) (o : Z) :
  Forall (fun x => 0 <= x < 256) b -> 0 <= le16 b o < 65536.
Proof.
  intros H. unfold le16.
  pose proof (nth_byte b (Z.to_nat o) H). pose proof (nth_byte b (Z.to_nat (o + 1)) H). lia.
Qed.

(** For a short entry decoded from bytes, the creation, last-access and write timestamps are decoded without failure from the u16 fields at offsets 14, 16, 18, 22 and 24. *)
Theorem decoded_entry_timestamps (b : list Z) (c : FatDirectoryEntryContainer) :
  Forall (fun x => 0 <= x < 256) b ->
  short_entry c = FatDirectoryEntry_new b ->
  let ct := le16 b 14 in let cd := le16 b 16 in let la := le16 b 18 in
  let wt := le16 b 22 in let wd := le16 b 24 in
  get_creation_time c =
    Ok (1980 + cd / 512, (cd / 32) mod 16, cd mod 32, ct / 2048, (ct / 32) mod 64, 2 * (ct mod 32)) /\
  get_last_accessed_date c = Ok (1980 + la / 512, (la / 32) mod 16, la mod 32) /\
  get_write_time c =
    Ok (1980 + wd / 512, (wd / 32) mod 16, wd mod 32, wt / 2048, (wt / 32) mod 64, 2 * (wt mod 32)).
Proof.
  intros Hb Hc. cbv zeta.
  unfold get_creation_time, get_last_accessed_date, get_write_time. rewrite Hc.
  cbn [created_date created_time last_accessed write_date write_time FatDirectoryEntry_new].
  rewrite !parse_date_fields, !parse_time_fields by (apply le16_bound; exact Hb).
  cbn [res_bind]. auto.
Qed.

(** For a short entry decoded from bytes, the cluster number is the u16 at offset 20 times 65536 plus the u16 at offset 26, and fits in a u32. *)
Theorem decoded_entry_cluster_number (b : list Z) :
  Forall (fun x => 0 <= x < 256) b ->
  cluster_number (FatDirectoryEntry_new b) = le16 b 20 * 65536 + le16 b 26 /\
  0 <= cluster_number (FatDirectoryEntry_new b) < 2 ^ 32.
Proof.
  intros Hb. unfold cluster_number. cbn [first_cluster_hi first_cluster_low FatDirectoryEntry_new].
  pose proof (le16_bound b 20 Hb). pose proof (le16_bound b 26 Hb).
  rewrite Z.lor_comm, lor_shiftl_add by lia. change (2 ^ 16) with 65536. lia.
Qed.

Lemma bytes_ok_Forall (l : list Z) : bytes_ok l = true -> Forall (fun x => 0 <= x < 256) l.
Proof.
  unfold bytes_ok. intros H. apply List.Forall_forall. intros x Hx.
  rewrite forallb_forall in H. specialize (H x Hx).
  apply andb_true_iff in H as [H1 H2]. apply Z.leb_le in H1. apply Z.ltb_lt in H2. lia.
Qed.

Lemma parse_date_fields_witness :
  0 <= 23073 < 65536 /\ parse_date 23073 = Ok (1980 + 23073 / 512, (23073 / 32) mod 16, 23073 mod 32).
Proof. split; [lia | apply (parse_date_fields 23073); lia]. Defined.

Lemma parse_time_fields_witness :
  0 <= 27471 < 65536 /\ parse_time 27471 = Ok (27471 / 2048, (27471 / 32) mod 64, 2 * (27471 mod 32)).
Proof. split; [lia | apply (parse_time_fields 27471); lia]. Defined.

Lemma decoded_entry_timestamps_witness :
  (Forall (fun x => 0 <= x < 256) demo_entry_bytes /\ short_entry demo_entry = FatDirectoryEntry_new demo_entry_bytes) /\
  get_write_time demo_entry =
    Ok (1980 + le16 demo_entry_bytes 24 / 512, (le16 demo_entry_bytes 24 / 32) mod 16, le16 demo_entry_bytes 24 mod 32,
        le16 demo_entry_bytes 22 / 2048, (le16 demo_entry_bytes 22 / 32) mod 64, 2 * (le16 demo_entry_bytes 22 mod 32)).
Proof.
  assert (H1 : Forall (fun x => 0 <= x < 256) demo_entry_bytes) by (apply bytes_ok_Forall; vm_compute; reflexivity).
  assert (H2 : short_entry demo_entry = FatDirectoryEntry_new demo_entry_bytes) by reflexivity.
  split; [exact (conj H1 H2)|].
  exact (proj2 (proj2 (decoded_entry_timestamps demo_entry_bytes demo_entry H1 H2))).
Defined.

Lemma decoded_entry_cluster_number_witness :
  Forall (fun x => 0 <= x < 256) demo_entry_bytes /\
  cluster_number (FatDirectoryEntry_new demo_entry_bytes) = le16 demo_entry_bytes 20 * 65536 + le16 demo_entry_bytes 26.
Proof.
  assert (H1 : Forall (fun x => 0 <= x < 256) demo_entry_bytes) by (apply bytes_ok_Forall; vm_compute; reflexivity).
  exact (conj H1 (proj1 (decoded_entry_cluster_number demo_entry_bytes H1))).
Defined.

Lemma get_data_subrange_witness :
  (inode_cache seed_volume !! 2 = Some 0 /\
   read_file_full 10 seed_volume 2 = Ok (res_default [] (read_file_full 10 seed_volume 2))) /\
  get_data 10 seed_volume 2 5 100 =
    Ok (Some (firstn 100 (skipn 5 (res_default [] (read_file_full 10 seed_volume 2))))).
Proof.
  assert (H1 : inode_cache seed_volume !! 2 = Some 0) by (vm_compute; reflexivity).
  assert (H2 : read_file_full 10 seed_volume 2 = Ok (res_default [] (read_file_full 10 seed_volume 2)))
    by (vm_compute; reflexivity).
  split; [exact (conj H1 H2)|].
  exact (get_data_subrange 10 seed_volume 2 5 100 0 _ H1 H2 ltac:(lia) ltac:(lia) ltac:(lia)).
Defined.

Lemma read_file_full_whole_clusters_witness :
  read_file_full 10 seed_volume 2 = Ok (res_default [] (read_file_full 10 seed_volume 2)) /\
  exists k, (1 <= k)%nat /\
    length (res_default [] (read_file_full 10 seed_volume 2)) =
      (k * (Z.to_nat (sectors_per_cluster (bpb seed_volume)) * Z.to_nat (bytes_per_sector (bpb seed_volume))))%nat.
Proof.
  assert (H : read_file_full 10 seed_volume 2 = Ok (res_default [] (read_file_full 10 seed_volume 2)))
    by (vm_compute; reflexivity).
  split; [exact H|].
  exact (read_file_full_whole_clusters 10 seed_volume 2 _ ltac:(discriminate) H).
Defined.

Lemma get_dir_caches_witness :
  get_dir 10 (fat32_volume 0) 2 =
    Ok (fst (res_default (fat32_volume 0, None) (get_dir 10 (fat32_volume 0) 2)),
        snd (res_default (fat32_volume 0, None) (get_dir 10 (fat32_volume 0) 2))) /\
  is_Some (snd (res_default (fat32_volume 0, None) (get_dir 10 (fat32_volume 0) 2))).
Proof.
  assert (H : get_dir 10 (fat32_volume 0) 2 =
              Ok (fst (res_default (fat32_volume 0, None) (get_dir 10 (fat32_volume 0) 2)),
                  snd (res_default (fat32_volume 0, None) (get_dir 10 (fat32_volume 0) 2))))
    by (vm_compute; reflexivity).
  split; [exact H|].
  exact (proj1 (get_dir_caches 10 (fat32_volume 0) _ 2 _ H)).
Defined.

Lemma lookup_result_witness :
  lookup (fun l => l) 10 demo_volume 2 (codes "HELLO.TXT") = Ok (demo_volume, Some demo_entry) /\
  exists dir, dir_cache demo_volume !! 2 = Some dir /\
    exists pre post, dir = pre ++ demo_entry :: post /\ cached_name demo_entry = codes "HELLO.TXT" /\
      Forall (fun c' => cached_name c' <> codes "HELLO.TXT") pre.
Proof.
  assert (H : lookup (fun l => l) 10 demo_volume 2 (codes "HELLO.TXT") = Ok (demo_volume, Some demo_entry))
    by (vm_compute; reflexivity).
  split; [exact H|].
  exact (lookup_result (fun l => l) 10 demo_volume demo_volume 2 (codes "HELLO.TXT") (Some demo_entry) H).
Defined.

Lemma get_inode_result_witness :
  get_inode demo_volume 5 = Ok (Some demo_entry) /\
  container_cluster_number demo_entry = 5.
Proof.
  assert (H : get_inode demo_volume 5 = Ok (Some demo_entry)) by (vm_compute; reflexivity).
  split; [exact H|].
  exact (proj1 (get_inode_result demo_volume 5 (Some demo_entry) H)).
Defined.

Lemma move_long_entries_all_or_nothing_witness :
  move_long_entries lfn_pending lfn_checksum [] = Ok (lfn_pending, []) /\
  ((lfn_pending = [] ++ lfn_pending /\ [] = @nil FatLongDirectoryEntry /\
    Forall (fun e => checksum e = lfn_checksum) lfn_pending) \/
   (lfn_pending = [] /\ exists pre e, lfn_pending = pre ++ e :: [])).
Proof.
  assert (H : move_long_entries lfn_pending lfn_checksum [] = Ok (lfn_pending, [])) by (vm_compute; reflexivity).
  split; [exact H|].
  exact (move_long_entries_all_or_nothing lfn_pending [] lfn_pending [] lfn_checksum H).
Defined.

Lemma read_dir_chain_entries_witness :
  read_dir_chain 10 (fat32_volume 0) 2 demo_dir_sector 0 =
    Ok (res_default (fat32_volume 0) (read_dir_chain 10 (fat32_volume 0) 2 demo_dir_sector 0)) /\
  exists entries,
    dir_cache (res_default (fat32_volume 0) (read_dir_chain 10 (fat32_volume 0) 2 demo_dir_sector 0)) !! 2 = Some entries /\
    Forall (decoded_entry_ok 10 (fat32_volume 0)) entries /\
    Forall (fun c => inode_cache (res_default (fat32_volume 0) (read_dir_chain 10 (fat32_volume 0) 2 demo_dir_sector 0))
                       !! container_cluster_number c = Some 2) entries.
Proof.
  assert (H : read_dir_chain 10 (fat32_volume 0) 2 demo_dir_sector 0 =
              Ok (res_default (fat32_volume 0) (read_dir_chain 10 (fat32_volume 0) 2 demo_dir_sector 0)))
    by (vm_compute; reflexivity).
  split; [exact H|].
  exact (read_dir_chain_entries 10 (fat32_volume 0) _ 2 demo_dir_sector 0 H).
Defined.

Lemma mount_volume_reserved_region_witness :
  mount_volume 10 seed_image = Ok seed_volume /\
  image seed_volume = seed_image /\ 2 <= num_fats (bpb seed_volume).
Proof.
  assert (H : mount_volume 10 seed_image = Ok seed_volume) by (vm_compute; reflexivity).
  split; [exact H|].
  destruct (mount_volume_reserved_region 10 seed_image seed_volume H) as (H1 & H2 & _).
  exact (conj H1 H2).
Defined.

Lemma mount_volume_boot_sector_witness :
  mount_volume 10 seed_image = Ok seed_volume /\
  exists buffer, signature_ok buffer = true /\ bpb seed_volume = FatBpb_new buffer.
Proof.
  assert (H : mount_volume 10 seed_image = Ok seed_volume) by (vm_compute; reflexivity).
  split; [exact H|].
  destruct (mount_volume_boot_sector 10 seed_image seed_volume H) as (b & Hs & _ & _ & Hb & _).
  exists b. exact (conj Hs Hb).
Defined.

Lemma first_sector_of_cluster_reserved_witness :
  0 <= 1 < 2 /\ first_sector_of_cluster (fat32_volume 0) 1 = Panic.
Proof. split; [lia | apply (first_sector_of_cluster_reserved (fat32_volume 0) 1); lia]. Defined.

Lemma fat16_entry_decoding_witness :
  (fat_type fat16_demo_volume = Fat16 /\
   fat fat16_demo_volume !! (reserved_clusters (bpb fat16_demo_volume) + 2 * 3 / bytes_per_sector (bpb fat16_demo_volume))
     = Some fat32_bank1_sector /\
   Forall (fun b => 0 <= b < 256) fat32_bank1_sector) /\
  fat_entry_of fat16_demo_volume 3 = Ok (le16 fat32_bank1_sector ((2 * 3) mod bytes_per_sector (bpb fat16_demo_volume))).
Proof.
  assert (H1 : fat_type fat16_demo_volume = Fat16) by reflexivity.
  assert (H2 : fat fat16_demo_volume !! (reserved_clusters (bpb fat16_demo_volume) + 2 * 3 / bytes_per_sector (bpb fat16_demo_volume))
     = Some fat32_bank1_sector) by (vm_compute; reflexivity).
  assert (H3 : Forall (fun b => 0 <= b < 256) fat32_bank1_sector) by (apply bytes_ok_Forall; vm_compute; reflexivity).
  split; [exact (conj H1 (conj H2 H3))|].
  apply (fat16_entry_decoding fat16_demo_volume 3 fat32_bank1_sector H1); try exact H2; try exact H3;
    vm_compute; try reflexivity; split; discriminate || reflexivity.
Defined.

Lemma fat32_entry_decoding_witness :
  (fat_type (fat32_volume 0) = Fat32 /\ ebpb32 (fat32_volume 0) = Some (fat32_ebpb 0) /\
   fat (fat32_volume 0) !! (reserved_clusters (bpb (fat32_volume 0)) + 4 * 2 / bytes_per_sector (bpb (fat32_volume 0)))
     = Some fat32_bank1_sector /\
   Forall (fun b => 0 <= b < 256) fat32_bank1_sector) /\
  fat_entry_of (fat32_volume 0) 2 =
    Ok (le32 fat32_bank1_sector ((4 * 2) mod bytes_per_sector (bpb (fat32_volume 0))) mod 2 ^ 28).
Proof.
  assert (H1 : fat_type (fat32_volume 0) = Fat32) by reflexivity.
  assert (H2 : ebpb32 (fat32_volume 0) = Some (fat32_ebpb 0)) by reflexivity.
  assert (H3 : fat (fat32_volume 0) !! (reserved_clusters (bpb (fat32_volume 0)) + 4 * 2 / bytes_per_sector (bpb (fat32_volume 0)))
     = Some fat32_bank1_sector) by (vm_compute; reflexivity).
  assert (H4 : Forall (fun b => 0 <= b < 256) fat32_bank1_sector) by (apply bytes_ok_Forall; vm_compute; reflexivity).
  split; [exact (conj H1 (conj H2 (conj H3 H4)))|].
  apply (fat32_entry_decoding (fat32_volume 0) (fat32_ebpb 0) 2 fat32_bank1_sector H1 H2); try exact H3; try exact H4;
    vm_compute; try reflexivity; split; discriminate || reflexivity.
Defined.

Lemma readdir_resume_witness :
  (readdir 10 demo_volume 1 0 = Ok (demo_volume, Some demo_listing) /\
   nth_error demo_listing 1 = Some (1, 2, KDirectory, [46; 46])) /\
  readdir 7 demo_volume 1 2 = Ok (demo_volume, Some (skipn 2 demo_listing)).
Proof.
  assert (H1 : readdir 10 demo_volume 1 0 = Ok (demo_volume, Some demo_listing)) by (vm_compute; reflexivity).
  assert (H2 : nth_error demo_listing 1 = Some (1, 2, KDirectory, [46; 46])) by reflexivity.
  split; [exact (conj H1 H2)|].
  exact (proj2 (readdir_resume 10 7 demo_volume demo_volume 1 demo_listing 1 1 2 KDirectory [46; 46] H1 H2 ltac:(vm_compute; reflexivity))).
Defined.

Lemma readdir_entries_witness :
  readdir 10 demo_volume 1 0 = Ok (demo_volume, Some demo_listing) /\
  exists root dir, get_root_cluster_number demo_volume = Ok root /\
    dir_cache demo_volume !! (if 1 =? 1 then root else 1) = Some dir /\
    Forall (readdir_listed root dir 1) demo_listing.
Proof.
  assert (H : readdir 10 demo_volume 1 0 = Ok (demo_volume, Some demo_listing)) by (vm_compute; reflexivity).
  split; [exact H|].
  exact (readdir_entries 10 demo_volume demo_volume 1 0 demo_listing H).
Defined.
